(** * AccessAPI_ML: a client of the Mercado Livre REST API

    A shallow embedding of [AccessAPI_ML.py].  Every method of the class is an
    interaction tree over the events the Python code performs: reading and
    writing attributes of [self], [requests.get], [requests.post] and raising
    an exception.  The two [while True] loops are [ITree.iter], so a method
    that never returns is a tree that never reaches a leaf.  A bounded
    interpreter [run] executes a tree against a model of the remote server
    and records every outbound request. *)

From Stdlib Require Import String List ZArith Lia.
From ITree Require Import ITree Eq.Shallow.
Import ListNotations.
Import ITreeNotations.
Local Open Scope string_scope.
Local Open Scope Z_scope.
Local Open Scope itree_scope.

(** ** Python values *)

#[local] Set Warnings "-register-all".

(** The values the code handles: what [response.json()] decodes (JSON null
    is Python's [None]), the dictionaries it builds for headers and
    parameters, and the tuple [get_items_details] returns.  A dictionary is
    the list of its items in insertion order.  Numbers are the integers. *)
Inductive pyval : Type :=
| PNone
| PBool (b : bool)
| PInt (n : Z)
| PStr (s : string)
| PList (l : list pyval)
| PTuple (l : list pyval)
| PDict (items : list (string * pyval)).

(** The exceptions that can leave a method; none is caught in the class. *)
Variant exn : Type :=
| KeyError (key : string)
| TypeError
| AttributeError (name : string)
| JSONDecodeError
| RequestException.

(** [d[k]] on the items of a dictionary. *)
Fixpoint dict_get (items : list (string * pyval)) (k : string) : option pyval :=
  match items with
  | [] => None
  | (k', v) :: rest => if String.eqb k k' then Some v else dict_get rest k
  end.

(** [obj.name = v] on the attributes of an object. *)
Fixpoint dict_set (items : list (string * pyval)) (k : string) (v : pyval)
  : list (string * pyval) :=
  match items with
  | [] => [(k, v)]
  | (k', v') :: rest =>
      if String.eqb k k' then (k, v) :: rest else (k', v') :: dict_set rest k v
  end.

(** [v[k]] for a string key [k]: only a dictionary can be indexed by a
    string, and a missing key is a [KeyError]. *)
Definition subscript (v : pyval) (k : string) : exn + pyval :=
  match v with
  | PDict items =>
      match dict_get items k with
      | Some x => inr x
      | None => inl (KeyError k)
      end
  | _ => inl TypeError
  end.

Fixpoint str_take (n : nat) (s : string) : string :=
  match n, s with
  | S n', String c s' => String c (str_take n' s')
  | _, _ => EmptyString
  end.

(** [v[:n]]: the first [n] elements of a sequence, all of it when shorter. *)
Definition slice_to (v : pyval) (n : nat) : exn + pyval :=
  match v with
  | PStr s => inr (PStr (str_take n s))
  | PList l => inr (PList (firstn n l))
  | PTuple l => inr (PTuple (firstn n l))
  | _ => inl TypeError
  end.

Fixpoint str_chars (s : string) : list pyval :=
  match s with
  | EmptyString => []
  | String c s' => PStr (String c EmptyString) :: str_chars s'
  end.

(** The elements [list.extend] takes from its argument. *)
Definition iterate (v : pyval) : exn + list pyval :=
  match v with
  | PList l => inr l
  | PTuple l => inr l
  | PStr s => inr (str_chars s)
  | PDict items => inr (map (fun kv => PStr (fst kv)) items)
  | _ => inl TypeError
  end.

(** [a + b]. *)
Definition py_add (a b : pyval) : exn + pyval :=
  match a, b with
  | PStr s, PStr t => inr (PStr (s ++ t))
  | PInt m, PInt n => inr (PInt (m + n))
  | PInt m, PBool b => inr (PInt (m + Z.b2z b))
  | PBool b, PInt n => inr (PInt (Z.b2z b + n))
  | PBool a, PBool b => inr (PInt (Z.b2z a + Z.b2z b))
  | PList l, PList r => inr (PList (l ++ r))
  | PTuple l, PTuple r => inr (PTuple (l ++ r))
  | _, _ => inl TypeError
  end.

(** [offset >= v] for the integer [offset]. *)
Definition int_ge (offset : Z) (v : pyval) : exn + bool :=
  match v with
  | PInt n => inr (n <=? offset)
  | PBool b => inr (Z.b2z b <=? offset)
  | _ => inl TypeError
  end.

(** ** The HTTP layer *)

Variant http_method : Type := GET | POST.

(** A call of [requests.get(url, headers=..., params=...)] or of
    [requests.post(url, headers=..., data=...)]. *)
Record request : Type := mkRequest {
  meth : http_method;
  url : pyval;
  headers : pyval;
  params : pyval;   (* [params] of a GET, [data] of a POST *)
}.

(** What the code reads of a response: [status_code], and [json()], which
    raises when the body is not JSON. *)
Record response : Type := mkResponse {
  status_code : Z;
  json_body : option pyval;
}.

(** The remote side: given the requests sent so far, latest first, it
    answers the latest one, or the call raises. *)
Definition server : Type := list request -> exn + response.

(** ** Events and their meaning *)

Variant pyE : Type -> Type :=
| GetAttr (name : string) : pyE pyval
| SetAttr (name : string) (v : pyval) : pyE unit
| RequestsGet (url headers params : pyval) : pyE response
| RequestsPost (url headers data : pyval) : pyE response
| Throw (e : exn) : pyE Empty_set.

(** The attributes of [self] and the requests sent so far, latest first. *)
Record world : Type := mkWorld {
  self : list (string * pyval);
  sent : list request;
}.

Definition send (srv : server) (r : request) (w : world)
  : (exn + response) * world :=
  let w' := mkWorld (self w) (r :: sent w) in
  (srv (sent w'), w').

Definition handle (srv : server) {T} (e : pyE T) (w : world) : (exn + T) * world :=
  match e in pyE T return (exn + T) * world with
  | GetAttr name =>
      match dict_get (self w) name with
      | Some v => (inr v, w)
      | None => (inl (AttributeError name), w)
      end
  | SetAttr name v => (inr tt, mkWorld (dict_set (self w) name v) (sent w))
  | RequestsGet u h p => send srv (mkRequest GET u h p) w
  | RequestsPost u h d => send srv (mkRequest POST u h d) w
  | Throw e => (inl e, w)
  end.

Variant outcome (R : Type) : Type :=
| Returned (r : R)
| Raised (e : exn)
| OutOfFuel.
Arguments Returned {R} r.
Arguments Raised {R} e.
Arguments OutOfFuel {R}.

(** [run fuel srv t w] executes [t] from [w]; every event and every silent
    step costs one unit of [fuel]. *)
Fixpoint run {R} (fuel : nat) (srv : server) (t : itree pyE R) (w : world)
  : outcome R * world :=
  match observe t with
  | RetF r => (Returned r, w)
  | TauF t' =>
      match fuel with
      | O => (OutOfFuel, w)
      | S fuel' => run fuel' srv t' w
      end
  | VisF e k =>
      match fuel with
      | O => (OutOfFuel, w)
      | S fuel' =>
          match handle srv e w with
          | (inl ex, w') => (Raised ex, w')
          | (inr a, w') => run fuel' srv (k a) w'
          end
      end
  end.

(** The method returns [r], leaving the world [w']. *)
Definition returns {R} (srv : server) (t : itree pyE R) (w : world)
  (r : R) (w' : world) : Prop :=
  exists n, forall fuel, (n <= fuel)%nat -> run fuel srv t w = (Returned r, w').

(** The method raises [e]. *)
Definition raises {R} (srv : server) (t : itree pyE R) (w : world)
  (e : exn) (w' : world) : Prop :=
  exists n, forall fuel, (n <= fuel)%nat -> run fuel srv t w = (Raised e, w').

(** The method neither returns nor raises, however long it runs. *)
Definition diverges {R} (srv : server) (t : itree pyE R) (w : world) : Prop :=
  forall fuel, fst (run fuel srv t w) = OutOfFuel.

(** ** The class *)

Definition raise {R} (e : exn) : itree pyE R :=
  Vis (Throw e) (fun v : Empty_set => match v with end).

Definition lift {R} (x : exn + R) : itree pyE R :=
  match x with
  | inl e => raise e
  | inr r => Ret r
  end.

Definition getattr (name : string) : itree pyE pyval := ITree.trigger (GetAttr name).
Definition setattr (name : string) (v : pyval) : itree pyE unit :=
  ITree.trigger (SetAttr name v).

(** [response.json()] *)
Definition json (r : response) : itree pyE pyval :=
  match json_body r with
  | Some v => Ret v
  | None => raise JSONDecodeError
  end.

(** [params] is [PNone] where the caller leaves it out. *)
Definition _make_api_request (endpoint : string) (params : pyval) : itree pyE pyval :=
  base_url <- getattr "base_url" ;;
  url <- lift (py_add base_url (PStr endpoint)) ;;
  access_token <- getattr "access_token" ;;
  user_agent <- getattr "user_agent" ;;
  let headers := PDict [("Authorization", access_token); ("User-Agent", user_agent)] in
  response <- ITree.trigger (RequestsGet url headers params) ;;
  if status_code response =? 200 then json response else Ret PNone.


(** [v is None] *)
Definition is_none (v : pyval) : bool :=
  match v with
  | PNone => true
  | _ => false
  end.

Definition oauth_url : string := "https://api.mercadolibre.com/oauth/token".
Definition base_url_value : string := "https://api.mercadolibre.com/".
Definition user_agent_value : string :=
  "Mozilla/5.0 (Windows NT 10.0; Win64; x64) AppleWebKit/537.36 (KHTML, like Gecko) Chrome/117.0.0.0 Safari/537.36".

Definition _get_access_token (client_id client_secret refresh_token : pyval)
  : itree pyE pyval :=
  let url := PStr oauth_url in
  let payload := PDict [("grant_type", PStr "refresh_token");
                        ("client_id", client_id);
                        ("client_secret", client_secret);
                        ("refresh_token", refresh_token)] in
  let headers := PDict [("accept", PStr "application/json");
                        ("content-type", PStr "application/x-www-form-urlencoded")] in
  response <- ITree.trigger (RequestsPost url headers payload) ;;
  token <- json response ;;
  lift (subscript token "access_token").

Definition __init__ (client_id client_secret refresh_token : pyval)
  : itree pyE unit :=
  access_token <- _get_access_token client_id client_secret refresh_token ;;
  setattr "access_token" access_token ;;
  setattr "base_url" (PStr base_url_value) ;;
  setattr "user_agent" (PStr user_agent_value).

Definition get_vendas (seller_id : pyval) : itree pyE pyval :=
  let endpoint := "orders/search" in
  access_token <- getattr "access_token" ;;
  let params := PDict [("seller", seller_id); ("access_token", access_token)] in
  _make_api_request endpoint params.

(** The two dates are strings, so formatting them in the f-strings leaves
    them as they are. *)
Definition get_vendas_by_range (seller_id : pyval) (dt_ini dt_fim : string)
  : itree pyE pyval :=
  let endpoint := "orders/search" in
  access_token <- getattr "access_token" ;;
  let params := PDict [("seller", seller_id);
                       ("order.date_created.from", PStr (dt_ini ++ "T00:00:00.000-00:00"));
                       ("order.date_created.to", PStr (dt_fim ++ "T23:59:59.000-00:00"));
                       ("access_token", access_token)] in
  _make_api_request endpoint params.

Definition get_produtos (palavra_chave : pyval) : itree pyE pyval :=
  let endpoint := "sites/MLB/search" in
  let params := PDict [("q", palavra_chave)] in
  _make_api_request endpoint params.

(** The local variables of a pagination loop: [offset] and [resultados]. *)
Definition paging_state : Type := Z * list pyval.

(** One turn of the [while True] of [get_produtos_paginacao]: [inl] goes
    round again, [inr] is [break]. *)
Definition produtos_body (palavra_chave : pyval) (limit : Z) (st : paging_state)
  : itree pyE (paging_state + paging_state) :=
  let endpoint := "sites/MLB/search" in
  let '(offset, resultados) := st in
  let params := PDict [("q", palavra_chave); ("limit", PInt limit); ("offset", PInt 0)] in
  response <- _make_api_request endpoint params ;;
  if is_none response then Ret (inl (offset, resultados))
  else
    results <- lift (subscript response "results") ;;
    page <- lift (iterate results) ;;
    let resultados := (resultados ++ page)%list in
    let offset := offset + limit in
    paging <- lift (subscript response "paging") ;;
    total <- lift (subscript paging "total") ;;
    reached <- lift (int_ge offset total) ;;
    if reached : bool then Ret (inr (offset, resultados))
    else Ret (inr (offset, resultados)).

(** [limit] is an integer, as its default 50 is. *)
Definition get_produtos_paginacao (palavra_chave : pyval) (limit : Z)
  : itree pyE pyval :=
  st <- ITree.iter (produtos_body palavra_chave limit) (0, []) ;;
  Ret (PList (snd st)).

(** [id_produto] is a string, so the f-string is a concatenation. *)
Definition get_items_details (id_produto : string) : itree pyE pyval :=
  let endpoint := "items/" ++ id_produto in
  dados <- _make_api_request endpoint PNone ;;
  start_time <- lift (subscript dados "start_time") ;;
  date <- lift (slice_to start_time 10) ;;
  seller_id <- lift (subscript dados "seller_id") ;;
  sold_quantity <- lift (subscript dados "sold_quantity") ;;
  Ret (PTuple [date; seller_id; sold_quantity]).

Definition get_items_by_seller (id_seller : pyval) : itree pyE pyval :=
  let endpoint := "sites/MLB/search" in
  let params := PDict [("seller_id", id_seller); ("sort", PStr "price_asc")] in
  _make_api_request endpoint params.

Definition get_all_categories : itree pyE pyval :=
  let endpoint := "sites/MLB/categories" in
  _make_api_request endpoint PNone.

Definition get_items_by_category (categoria : pyval) : itree pyE pyval :=
  let endpoint := "sites/MLB/search" in
  let params := PDict [("category", categoria)] in
  _make_api_request endpoint params.

(** One turn of the [while True] of [get_items_by_category_paging]. *)
Definition category_body (categoria : pyval) (limit : Z) (st : paging_state)
  : itree pyE (paging_state + paging_state) :=
  let endpoint := "sites/MLB/search" in
  let '(offset, resultados) := st in
  let params := PDict [("category", categoria); ("limit", PInt limit); ("offset", PInt 0)] in
  response <- _make_api_request endpoint params ;;
  if is_none response then Ret (inr (offset, resultados))
  else
    results <- lift (subscript response "results") ;;
    page <- lift (iterate results) ;;
    let resultados := (resultados ++ page)%list in
    let offset := offset + limit in
    paging <- lift (subscript response "paging") ;;
    total <- lift (subscript paging "total") ;;
    reached <- lift (int_ge offset total) ;;
    if reached : bool then Ret (inr (offset, resultados))
    else Ret (inl (offset, resultados)).

Definition get_items_by_category_paging (categoria : pyval) (limit : Z)
  : itree pyE pyval :=
  st <- ITree.iter (category_body categoria limit) (0, []) ;;
  Ret (PList (snd st)).

Definition get_items_by_seller_category (seller_id categoria : pyval)
  : itree pyE pyval :=
  let endpoint := "sites/MLB/search" in
  let params := PDict [("seller_id", seller_id); ("category", categoria)] in
  _make_api_request endpoint params.

Definition get_visits_by_items (id_produto : string) (dias data_final : pyval)
  : itree pyE pyval :=
  let endpoint := "items/" ++ id_produto ++ "/visits/time_window" in
  let params := PDict [("last", dias); ("unit", PStr "day"); ("ending", data_final)] in
  _make_api_request endpoint params.

Definition get_selled_items_by_seller (seller_id : pyval) : itree pyE pyval :=
  let endpoint := "orders/search" in
  let params := PDict [("seller", seller_id); ("order.status", PStr "paid")] in
  _make_api_request endpoint params.

(** ** Calls on a client *)

(** A call of one of the twelve query methods, with its arguments. *)
Variant query : Type :=
| Vendas (seller_id : pyval)
| VendasByRange (seller_id : pyval) (dt_ini dt_fim : string)
| Produtos (palavra_chave : pyval)
| ProdutosPaginacao (palavra_chave : pyval) (limit : Z)
| ItemsDetails (id_produto : string)
| ItemsBySeller (id_seller : pyval)
| AllCategories
| ItemsByCategory (categoria : pyval)
| ItemsByCategoryPaging (categoria : pyval) (limit : Z)
| ItemsBySellerCategory (seller_id categoria : pyval)
| VisitsByItems (id_produto : string) (dias data_final : pyval)
| SelledItemsBySeller (seller_id : pyval).

Definition call (q : query) : itree pyE pyval :=
  match q with
  | Vendas s => get_vendas s
  | VendasByRange s i f => get_vendas_by_range s i f
  | Produtos p => get_produtos p
  | ProdutosPaginacao p l => get_produtos_paginacao p l
  | ItemsDetails i => get_items_details i
  | ItemsBySeller s => get_items_by_seller s
  | AllCategories => get_all_categories
  | ItemsByCategory c => get_items_by_category c
  | ItemsByCategoryPaging c l => get_items_by_category_paging c l
  | ItemsBySellerCategory s c => get_items_by_seller_category s c
  | VisitsByItems i d f => get_visits_by_items i d f
  | SelledItemsBySeller s => get_selled_items_by_seller s
  end.

(** The methods that hand back what [_make_api_request] returns. *)
Definition thin (q : query) : bool :=
  match q with
  | ProdutosPaginacao _ _ | ItemsDetails _ | ItemsByCategoryPaging _ _ => false
  | _ => true
  end.

(** A caller makes the calls one after the other, each run with its own
    [fuel]; an exception is the caller's to catch, so the next call is made
    whatever the outcome of the one before. *)
Fixpoint session (srv : server) (calls : list (query * nat)) (w : world) : world :=
  match calls with
  | [] => w
  | (q, fuel) :: rest => session srv rest (snd (run fuel srv (call q) w))
  end.

(** The attributes [__init__] leaves on a client holding the token [tok]. *)
Definition client_attrs (tok : pyval) : list (string * pyval) :=
  [("access_token", tok);
   ("base_url", PStr base_url_value);
   ("user_agent", PStr user_agent_value)].

(** The GET such a client sends for [endpoint] and [params]. *)
Definition api_request (tok : pyval) (endpoint : string) (ps : pyval) : request :=
  mkRequest GET (PStr (base_url_value ++ endpoint))
    (PDict [("Authorization", tok); ("User-Agent", PStr user_agent_value)]) ps.

(** The GET of one turn of each pagination loop. *)
Definition produtos_request (tok : pyval) (limit : Z) (palavra_chave : pyval)
  : request :=
  api_request tok "sites/MLB/search"
    (PDict [("q", palavra_chave); ("limit", PInt limit); ("offset", PInt 0)]).

Definition category_request (tok : pyval) (limit : Z) (categoria : pyval)
  : request :=
  api_request tok "sites/MLB/search"
    (PDict [("category", categoria); ("limit", PInt limit); ("offset", PInt 0)]).

(** The POST of the token exchange. *)
Definition token_request (client_id client_secret refresh_token : pyval) : request :=
  mkRequest POST (PStr oauth_url)
    (PDict [("accept", PStr "application/json");
            ("content-type", PStr "application/x-www-form-urlencoded")])
    (PDict [("grant_type", PStr "refresh_token");
            ("client_id", client_id);
            ("client_secret", client_secret);
            ("refresh_token", refresh_token)]).

(** A world in which one more request has been sent. *)
Definition after (r : request) (w : world) : world :=
  mkWorld (self w) (r :: sent w).

(** A server that answers every request with a status other than 200. *)
Definition always_fails (srv : server) : Prop :=
  forall log, exists st body, srv log = inr (mkResponse st body) /\ st <> 200.

(** A page of a search: the body of a successful answer. *)
Definition page_body (results : list pyval) (total : Z) : pyval :=
  PDict [("paging", PDict [("total", PInt total)]); ("results", PList results)].

(** The attributes of a client holding [tok] are in place, and the requests
    sent since [base] all satisfy [P]. *)
Definition trace_inv (P : request -> Prop) (tok : pyval) (base : list request)
  (w : world) : Prop :=
  self w = client_attrs tok /\
  exists new, sent w = (new ++ base)%list /\ Forall P new.

(** However long [t] runs, and whatever its outcome, it keeps [I]. *)
Definition preserves {R} (srv : server) (I : world -> Prop) (t : itree pyE R) : Prop :=
  forall n w o w', I w -> run n srv t w = (o, w') -> I w'.

(** The request carries [tok] as its [Authorization] header. *)
Definition carries (tok : pyval) (r : request) : Prop :=
  meth r = GET /\ subscript (headers r) "Authorization" = inr tok.

(** The request asks for offset 0. *)
Definition offset_zero (r : request) : Prop :=
  subscript (params r) "offset" = inr (PInt 0).

(** The body of an answer is a page: it has a list of results and a total. *)
Definition is_page (body : pyval) (results : list pyval) (total : Z) : Prop :=
  subscript body "results" = inr (PList results) /\
  exists paging, subscript body "paging" = inr paging /\
                 subscript paging "total" = inr (PInt total).

(** The world once [r] has been sent [k] more times. *)
Definition sends (r : request) (k : nat) (w : world) : world :=
  mkWorld (self w) (repeat r k ++ sent w).

(** The number of pages of [limit] results that hold [total] results, for a
    positive [limit]. *)
Definition ceil_div (total limit : Z) : Z := (total + limit - 1) / limit.

(** Servers and clients to try the methods on. *)
Definition mock_server (status : Z) (body : option pyval) : server :=
  fun _ => inr (mkResponse status body).

Definition fresh : world := mkWorld [] [].

Definition client (tok : pyval) : world := mkWorld (client_attrs tok) [].

(** A server that answers the first [k] requests with status 200 and
    [body], and the later ones with status 500. *)
Definition flaky_server (k : nat) (body : pyval) : server :=
  fun log =>
    if (length log <=? k)%nat then inr (mkResponse 200 (Some body))
    else inr (mkResponse 500 None).

(** The state a turn of a pagination loop ends in, going on or not. *)
Definition state_of (lr : paging_state + paging_state) : paging_state :=
  match lr with
  | inl st => st
  | inr st => st
  end.

(** Called from [w], the request primitive returns [None] whatever it is
    asked for. *)
Definition primitive_fails (srv : server) (w : world) : Prop :=
  forall endpoint ps, exists w', returns srv (_make_api_request endpoint ps) w PNone w'.

(** What a loop does after one turn of its body. *)
Definition next {I R} (body : I -> itree pyE (I + R)) (lr : I + R) : itree pyE R :=
  match lr with
  | inl l => Tau (ITree.iter body l)
  | inr r => Ret r
  end.

(** The methods that have no loop. *)
Definition single (q : query) : bool :=
  match q with
  | ProdutosPaginacao _ _ | ItemsByCategoryPaging _ _ => false
  | _ => true
  end.

(** Both paginated methods raise [e], each after one request. *)
Definition paginated_raise (srv : server) (kw cat : pyval) (limit : Z)
  (w : world) (e : exn) : Prop :=
  (exists r, raises srv (get_produtos_paginacao kw limit) w e (after r w)) /\
  (exists r, raises srv (get_items_by_category_paging cat limit) w e (after r w)).

(** A server that answers the first [k] requests with status 503 and the
    later ones with status 200 and [body]. *)
Definition recovering_server (k : nat) (body : pyval) : server :=
  fun log =>
    if (length log <=? k)%nat then inr (mkResponse 503 None)
    else inr (mkResponse 200 (Some body)).

(** A server that answers the [i]-th request with the [i]-th of [pages]
    and always the same [total]. *)
Definition paged_server (pages : list (list pyval)) (total : Z) : server :=
  fun log =>
    inr (mkResponse 200
           (Some (page_body (nth (length log - 1) pages []) total))).

(** A server that cannot be reached. *)
Definition unreachable_server : server := fun _ => inl RequestException.

(** [p] is the request of a client holding [tok], for some endpoint and
    parameters. *)
Definition client_request (tok : pyval) (r : request) : Prop :=
  exists endpoint ps, r = api_request tok endpoint ps.

(** ** Running a tree *)

Lemma run_mono {R} (srv : server) (n : nat) :
  forall (t : itree pyE R) (w : world) (o : outcome R) (w' : world),
    run n srv t w = (o, w') -> o <> OutOfFuel ->
    forall m, (n <= m)%nat -> run m srv t w = (o, w').
Proof.
  induction n as [|n IH]; intros t w o w' Hrun Ho m Hm.
  - destruct m; cbn in *; destruct (observe t); try exact Hrun;
      inversion Hrun; subst; congruence.
  - destruct m as [|m]; [lia|]. cbn in *.
    destruct (observe t) as [r|t'|X e k]; try exact Hrun.
    + apply IH; [assumption..|lia].
    + destruct (handle srv e w) as [[ex|a] w1]; [exact Hrun|].
      apply IH; [assumption..|lia].
Qed.

Lemma returns_of_run {R} (srv : server) (n : nat) (t : itree pyE R) w r w' :
  run n srv t w = (Returned r, w') -> returns srv t w r w'.
Proof.
  intros H. exists n. intros fuel Hf.
  apply (run_mono srv n t w _ _ H); [discriminate|exact Hf].
Qed.

Lemma raises_of_run {R} (srv : server) (n : nat) (t : itree pyE R) w e w' :
  run n srv t w = (Raised e, w') -> raises srv t w e w'.
Proof.
  intros H. exists n. intros fuel Hf.
  apply (run_mono srv n t w _ _ H); [discriminate|exact Hf].
Qed.

Section Running.

Context {R : Type} (srv : server).

Lemma run_observe (n : nat) (t t' : itree pyE R) (w : world) :
  observe t = observe t' -> run n srv t w = run n srv t' w.
Proof. destruct n; simpl; intros ->; reflexivity. Qed.

Lemma run_ret (n : nat) (r : R) (w : world) :
  run n srv (Ret r) w = (Returned r, w).
Proof. destruct n; reflexivity. Qed.

Lemma run_tau (n : nat) (t : itree pyE R) (w : world) :
  run (S n) srv (Tau t) w = run n srv t w.
Proof. reflexivity. Qed.

Lemma run_raise (n : nat) (e : exn) (w : world) :
  run (S n) srv (raise e) w = (Raised (R := R) e, w).
Proof. reflexivity. Qed.

Lemma returns_fun (t : itree pyE R) w r1 w1 r2 w2 :
  returns srv t w r1 w1 -> returns srv t w r2 w2 -> r1 = r2 /\ w1 = w2.
Proof.
  intros [n1 H1] [n2 H2].
  specialize (H1 (Nat.max n1 n2) (Nat.le_max_l _ _)).
  specialize (H2 (Nat.max n1 n2) (Nat.le_max_r _ _)).
  rewrite H1 in H2. inversion H2; auto.
Qed.

Lemma returns_not_raises (t : itree pyE R) w r w1 e w2 :
  returns srv t w r w1 -> raises srv t w e w2 -> False.
Proof.
  intros [n1 H1] [n2 H2].
  specialize (H1 (Nat.max n1 n2) (Nat.le_max_l _ _)).
  specialize (H2 (Nat.max n1 n2) (Nat.le_max_r _ _)).
  rewrite H1 in H2. discriminate.
Qed.

Lemma diverges_not_returns (t : itree pyE R) w r w1 :
  diverges srv t w -> returns srv t w r w1 -> False.
Proof.
  intros D [n H]. specialize (D n). rewrite (H n (Nat.le_refl n)) in D.
  discriminate.
Qed.

Lemma diverges_not_raises (t : itree pyE R) w e w1 :
  diverges srv t w -> raises srv t w e w1 -> False.
Proof.
  intros D [n H]. specialize (D n). rewrite (H n (Nat.le_refl n)) in D.
  discriminate.
Qed.

End Running.

Section Sequencing.

Context {A R : Type} (srv : server).

Lemma run_bind_ret (n : nat) (a : A) (k : A -> itree pyE R) (w : world) :
  run n srv (ITree.bind (Ret a) k) w = run n srv (k a) w.
Proof. apply run_observe. reflexivity. Qed.

Lemma run_bind_lift_ok (n : nat) (a : A) (k : A -> itree pyE R) (w : world) :
  run n srv (ITree.bind (lift (inr a)) k) w = run n srv (k a) w.
Proof. apply run_bind_ret. Qed.

Lemma run_bind_raise (n : nat) (e : exn) (k : A -> itree pyE R) (w : world) :
  run (S n) srv (ITree.bind (raise e) k) w = (Raised e, w).
Proof. reflexivity. Qed.

Lemma run_bind_trigger (n : nat) (e : pyE A) (k : A -> itree pyE R) (w : world) :
  run (S n) srv (ITree.bind (ITree.trigger e) k) w =
  match handle srv e w with
  | (inl ex, w') => (Raised ex, w')
  | (inr a, w') => run n srv (k a) w'
  end.
Proof.
  simpl. destruct (handle srv e w) as [[ex|a] w']; [reflexivity|].
  apply run_bind_ret.
Qed.

(** A sequence runs its first part, then the rest on what is left. *)
Lemma run_bind_inv (n : nat) :
  forall (t : itree pyE A) (k : A -> itree pyE R) w o w',
    run n srv (ITree.bind t k) w = (o, w') ->
    (exists a w1 m, (m <= n)%nat /\ run n srv t w = (Returned a, w1) /\
                    run m srv (k a) w1 = (o, w')) \/
    (exists e, run n srv t w = (Raised e, w') /\ o = Raised e) \/
    (run n srv t w = (OutOfFuel, w') /\ o = OutOfFuel).
Proof.
  induction n as [|n IH]; intros t k w o w' H.
  - simpl in *. destruct (observe t) as [a|t'|X e h] eqn:Ht; simpl in H.
    + left. exists a, w, 0%nat. repeat split; auto.
    + right; right. inversion H; auto.
    + right; right. inversion H; auto.
  - simpl in H. simpl. destruct (observe t) as [a|t'|X e h] eqn:Ht; simpl in H.
    + left. exists a, w, (S n). repeat split; auto.
    + apply IH in H. destruct H as [(a & w1 & m & Hm & Ht' & Hk)|H].
      * left. exists a, w1, m. repeat split; auto.
      * right. exact H.
    + destruct (handle srv e w) as [[ex|x] w1].
      * right; left. exists ex. inversion H; auto.
      * apply IH in H. destruct H as [(a & w2 & m & Hm & Ht' & Hk)|H].
        -- left. exists a, w2, m. repeat split; auto.
        -- right. exact H.
Qed.

Lemma run_bind_returned (n : nat) :
  forall (t : itree pyE A) (k : A -> itree pyE R) w a w1 m o w2,
    run n srv t w = (Returned a, w1) ->
    run m srv (k a) w1 = (o, w2) -> o <> OutOfFuel ->
    run (n + m) srv (ITree.bind t k) w = (o, w2).
Proof.
  induction n as [|n IH]; intros t k w a w1 m o w2 Ht Hk Ho.
  - simpl in Ht. destruct (observe t) as [a'|t'|X e h] eqn:Hobs;
      try discriminate.
    inversion Ht; subst. simpl.
    rewrite (run_observe srv m (ITree.bind t k) (k a) w1); [exact Hk|].
    rewrite observe_bind, Hobs. reflexivity.
  - simpl in Ht. destruct (observe t) as [a'|t'|X e h] eqn:Hobs.
    + inversion Ht; subst.
      rewrite (run_observe srv _ (ITree.bind t k) (k a) w1).
      * apply (run_mono srv m _ _ _ _ Hk Ho). lia.
      * rewrite observe_bind, Hobs. reflexivity.
    + replace (S n + m)%nat with (S (n + m)) by lia.
      rewrite (run_observe srv _ (ITree.bind t k) (Tau (ITree.bind t' k)) w).
      * rewrite run_tau. eapply IH; eauto.
      * rewrite observe_bind, Hobs. reflexivity.
    + replace (S n + m)%nat with (S (n + m)) by lia.
      rewrite (run_observe srv _ (ITree.bind t k)
                 (Vis e (fun x => ITree.bind (h x) k)) w).
      * simpl. destruct (handle srv e w) as [[ex|x] w'] ; [discriminate|].
        eapply IH; eauto.
      * rewrite observe_bind, Hobs. reflexivity.
Qed.

Lemma run_bind_raised (n : nat) :
  forall (t : itree pyE A) (k : A -> itree pyE R) w e w1,
    run n srv t w = (Raised e, w1) ->
    run n srv (ITree.bind t k) w = (Raised e, w1).
Proof.
  induction n as [|n IH]; intros t k w e w1 Ht.
  - simpl in Ht. destruct (observe t); discriminate.
  - simpl in Ht. destruct (observe t) as [a'|t'|X ev h] eqn:Hobs.
    + discriminate.
    + rewrite (run_observe srv _ (ITree.bind t k) (Tau (ITree.bind t' k)) w).
      * rewrite run_tau. apply IH, Ht.
      * rewrite observe_bind, Hobs. reflexivity.
    + rewrite (run_observe srv _ (ITree.bind t k)
                 (Vis ev (fun x => ITree.bind (h x) k)) w).
      * simpl. destruct (handle srv ev w) as [[ex|x] w'].
        -- inversion Ht; reflexivity.
        -- apply IH, Ht.
      * rewrite observe_bind, Hobs. reflexivity.
Qed.

Lemma returns_bind (t : itree pyE A) (k : A -> itree pyE R) w a w1 r w2 :
  returns srv t w a w1 -> returns srv (k a) w1 r w2 ->
  returns srv (ITree.bind t k) w r w2.
Proof.
  intros [n Ht] [m Hk].
  apply (returns_of_run srv (n + m)).
  eapply run_bind_returned; [apply Ht|apply Hk|]; auto; discriminate.
Qed.

Lemma raises_bind (t : itree pyE A) (k : A -> itree pyE R) w a w1 e w2 :
  returns srv t w a w1 -> raises srv (k a) w1 e w2 ->
  raises srv (ITree.bind t k) w e w2.
Proof.
  intros [n Ht] [m Hk].
  apply (raises_of_run srv (n + m)).
  eapply run_bind_returned; [apply Ht|apply Hk|]; auto; discriminate.
Qed.

Lemma raises_bind_first (t : itree pyE A) (k : A -> itree pyE R) w e w1 :
  raises srv t w e w1 -> raises srv (ITree.bind t k) w e w1.
Proof.
  intros [n Ht]. apply (raises_of_run srv n).
  apply run_bind_raised, Ht, Nat.le_refl.
Qed.

Lemma diverges_bind (t : itree pyE A) (k : A -> itree pyE R) w a w1 :
  returns srv t w a w1 -> diverges srv (k a) w1 ->
  diverges srv (ITree.bind t k) w.
Proof.
  intros Ht Hk n.
  destruct (run n srv (ITree.bind t k) w) as [o w'] eqn:H.
  apply run_bind_inv in H.
  destruct H as [(a' & w1' & m & Hm & Ht' & Hk')|[(e & He & ->)|[_ ->]]].
  - assert (Ha : returns srv t w a' w1') by (eapply returns_of_run; eauto).
    destruct (returns_fun srv t w _ _ _ _ Ht Ha) as [<- <-].
    specialize (Hk m). rewrite Hk' in Hk. exact Hk.
  - exfalso. eapply returns_not_raises; [exact Ht|].
    eapply raises_of_run; eauto.
  - reflexivity.
Qed.

End Sequencing.

Section Loops.

Context {I R : Type} (srv : server) (body : I -> itree pyE (I + R)).

Lemma run_iter (n : nat) (i : I) (w : world) :
  run n srv (ITree.iter body i) w = run n srv (ITree.bind (body i) (next body)) w.
Proof. apply run_observe. reflexivity. Qed.

Lemma returns_iter_break (i : I) w r w1 :
  returns srv (body i) w (inr r) w1 -> returns srv (ITree.iter body i) w r w1.
Proof.
  intros [n H]. apply (returns_of_run srv (n + 0)). rewrite run_iter.
  eapply run_bind_returned; [apply H, Nat.le_refl| |discriminate].
  reflexivity.
Qed.

Lemma returns_iter_again (i i' : I) w w1 r w2 :
  returns srv (body i) w (inl i') w1 ->
  returns srv (ITree.iter body i') w1 r w2 ->
  returns srv (ITree.iter body i) w r w2.
Proof.
  intros [n H] [m K]. apply (returns_of_run srv (n + S m)). rewrite run_iter.
  eapply run_bind_returned; [apply H, Nat.le_refl| |discriminate].
  simpl. apply K, Nat.le_refl.
Qed.

Lemma raises_iter (i : I) w e w1 :
  raises srv (body i) w e w1 -> raises srv (ITree.iter body i) w e w1.
Proof.
  intros [n H]. apply (raises_of_run srv n). rewrite run_iter.
  apply run_bind_raised, H, Nat.le_refl.
Qed.

(** A loop whose every turn goes round again never ends. *)
Lemma diverges_iter (Inv : I -> world -> Prop) :
  (forall i w, Inv i w ->
     exists i' w', returns srv (body i) w (inl i') w' /\ Inv i' w') ->
  forall i w, Inv i w -> diverges srv (ITree.iter body i) w.
Proof.
  intros Hstep i w HI n. revert i w HI.
  induction n as [n IH] using lt_wf_ind. intros i w HI.
  rewrite run_iter.
  destruct (run n srv (ITree.bind (body i) (next body)) w) as [o w'] eqn:H.
  destruct (Hstep i w HI) as (i' & w1 & Hb & HI').
  apply run_bind_inv in H.
  destruct H as [(a & w2 & m & Hm & Ha & Hk)|[(e & He & ->)|[_ ->]]].
  - assert (Hr : returns srv (body i) w a w2) by (eapply returns_of_run; eauto).
    destruct (returns_fun srv _ _ _ _ _ _ Hb Hr) as [<- <-].
    simpl in Hk. destruct m as [|m].
    + simpl in Hk. inversion Hk; reflexivity.
    + rewrite run_tau in Hk.
      assert (Hlt : (m < n)%nat) by lia.
      specialize (IH m Hlt i' w1 HI'). rewrite Hk in IH. exact IH.
  - exfalso. eapply returns_not_raises; [exact Hb|].
    eapply raises_of_run; eauto.
  - reflexivity.
Qed.

End Loops.

Section Preservation.

Context (srv : server) (Inv : world -> Prop).

Lemma preserves_ret {R} (r : R) : preserves srv Inv (Ret r).
Proof. intros n w o w' HI H. rewrite run_ret in H. inversion H; subst; auto. Qed.

Lemma preserves_raise {R} (e : exn) : preserves srv Inv (raise (R := R) e).
Proof.
  intros n w o w' HI H. destruct n; simpl in H; inversion H; subst; auto.
Qed.

Lemma preserves_lift {R} (x : exn + R) : preserves srv Inv (lift x).
Proof. destruct x; [apply preserves_raise|apply preserves_ret]. Qed.

Lemma preserves_getattr (name : string) : preserves srv Inv (getattr name).
Proof.
  intros n w o w' HI H. destruct n; simpl in H.
  - inversion H; subst; auto.
  - destruct (dict_get (self w) name); [rewrite run_ret in H|];
      inversion H; subst; auto.
Qed.

Lemma preserves_bind {A R} (t : itree pyE A) (k : A -> itree pyE R) :
  preserves srv Inv t -> (forall a, preserves srv Inv (k a)) ->
  preserves srv Inv (ITree.bind t k).
Proof.
  intros Ht Hk n w o w' HI H. apply run_bind_inv in H.
  destruct H as [(a & w1 & m & Hm & Ha & Hr)|[(e & He & ->)|[Ho ->]]].
  - eapply Hk; [|exact Hr]. eapply Ht; eauto.
  - eapply Ht; eauto.
  - eapply Ht; eauto.
Qed.

Lemma preserves_iter {I R} (body : I -> itree pyE (I + R)) :
  (forall i, preserves srv Inv (body i)) ->
  forall i, preserves srv Inv (ITree.iter body i).
Proof.
  intros Hb i n. revert i.
  induction n as [n IH] using lt_wf_ind. intros i w o w' HI H.
  rewrite run_iter in H. apply run_bind_inv in H.
  destruct H as [(a & w1 & m & Hm & Ha & Hr)|[(e & He & ->)|[Ho ->]]].
  - assert (HI1 : Inv w1) by (eapply Hb; eauto).
    destruct a as [i'|r]; simpl in Hr.
    + destruct m as [|m]; simpl in Hr.
      * inversion Hr; subst; auto.
      * eapply (IH m); [lia|exact HI1|exact Hr].
    + rewrite run_ret in Hr. inversion Hr; subst; auto.
  - eapply Hb; eauto.
  - eapply Hb; eauto.
Qed.

End Preservation.

Section Association.

Context {A B R : Type} (srv : server).

Lemma observe_bind_ret (t : itree pyE A) (k : A -> itree pyE R) (a : A) :
  observe t = RetF a -> observe (ITree.bind t k) = observe (k a).
Proof. intros H. rewrite observe_bind, H. reflexivity. Qed.

Lemma observe_bind_tau (t t' : itree pyE A) (k : A -> itree pyE R) :
  observe t = TauF t' -> observe (ITree.bind t k) = TauF (ITree.bind t' k).
Proof. intros H. rewrite observe_bind, H. reflexivity. Qed.

Lemma observe_bind_vis {X} (t : itree pyE A) (e : pyE X) (h : X -> itree pyE A)
  (k : A -> itree pyE R) :
  observe t = VisF e h ->
  observe (ITree.bind t k) = VisF e (fun x => ITree.bind (h x) k).
Proof. intros H. rewrite observe_bind, H. reflexivity. Qed.

End Association.

Section Shapes.

Context {A R : Type} (srv : server) (n : nat) (t : itree pyE A)
  (k : A -> itree pyE R) (w : world).

Lemma run_bind_is_ret (a : A) :
  observe t = RetF a -> run n srv (ITree.bind t k) w = run n srv (k a) w.
Proof. intros H. apply run_observe, observe_bind_ret, H. Qed.

Lemma run_bind_is_tau (t' : itree pyE A) :
  observe t = TauF t' ->
  run n srv (ITree.bind t k) w = run n srv (Tau (ITree.bind t' k)) w.
Proof. intros H. apply run_observe. rewrite (observe_bind_tau t t' k H). reflexivity. Qed.

Lemma run_bind_is_vis {X} (e : pyE X) (h : X -> itree pyE A) :
  observe t = VisF e h ->
  run n srv (ITree.bind t k) w = run n srv (Vis e (fun x => ITree.bind (h x) k)) w.
Proof. intros H. apply run_observe. rewrite (observe_bind_vis t e h k H). reflexivity. Qed.

End Shapes.

Lemma run_bind_bind {A B R} (srv : server) (n : nat) :
  forall (t : itree pyE A) (f : A -> itree pyE B) (g : B -> itree pyE R) w,
    run n srv (ITree.bind (ITree.bind t f) g) w =
    run n srv (ITree.bind t (fun x => ITree.bind (f x) g)) w.
Proof.
  induction n as [|n IH]; intros t f g w;
    destruct (observe t) as [a|t'|X e h] eqn:Ht.
  - rewrite (run_bind_is_ret srv _ t (fun x => ITree.bind (f x) g) w a Ht).
    apply run_observe. rewrite observe_bind.
    rewrite (observe_bind_ret t f a Ht). rewrite <- observe_bind. reflexivity.
  - rewrite (run_bind_is_tau srv _ t (fun x => ITree.bind (f x) g) w t' Ht).
    rewrite (run_bind_is_tau srv _ (ITree.bind t f) g w (ITree.bind t' f)
               (observe_bind_tau t t' f Ht)).
    reflexivity.
  - rewrite (run_bind_is_vis srv _ t (fun x => ITree.bind (f x) g) w e h Ht).
    rewrite (run_bind_is_vis srv _ (ITree.bind t f) g w e
               (fun x => ITree.bind (h x) f) (observe_bind_vis t e h f Ht)).
    reflexivity.
  - rewrite (run_bind_is_ret srv _ t (fun x => ITree.bind (f x) g) w a Ht).
    apply run_observe. rewrite observe_bind.
    rewrite (observe_bind_ret t f a Ht). rewrite <- observe_bind. reflexivity.
  - rewrite (run_bind_is_tau srv _ t (fun x => ITree.bind (f x) g) w t' Ht).
    rewrite (run_bind_is_tau srv _ (ITree.bind t f) g w (ITree.bind t' f)
               (observe_bind_tau t t' f Ht)).
    rewrite !run_tau. apply IH.
  - rewrite (run_bind_is_vis srv _ t (fun x => ITree.bind (f x) g) w e h Ht).
    rewrite (run_bind_is_vis srv _ (ITree.bind t f) g w e
               (fun x => ITree.bind (h x) f) (observe_bind_vis t e h f Ht)).
    simpl. destruct (handle srv e w) as [[ex|x] w']; [reflexivity|apply IH].
Qed.

Lemma run_bind_ret_r {R} (srv : server) (n : nat) :
  forall (t : itree pyE R) w,
    run n srv (ITree.bind t (fun x => Ret x)) w = run n srv t w.
Proof.
  induction n as [|n IH]; intros t w;
    destruct (observe t) as [a|t'|X e h] eqn:Ht.
  - rewrite (run_bind_is_ret srv _ t _ w a Ht). simpl. rewrite Ht. reflexivity.
  - rewrite (run_bind_is_tau srv _ t _ w t' Ht). simpl. rewrite Ht. reflexivity.
  - rewrite (run_bind_is_vis srv _ t _ w e h Ht). simpl. rewrite Ht. reflexivity.
  - rewrite (run_bind_is_ret srv _ t _ w a Ht). simpl. rewrite Ht. reflexivity.
  - rewrite (run_bind_is_tau srv _ t _ w t' Ht). simpl. rewrite Ht. apply IH.
  - rewrite (run_bind_is_vis srv _ t _ w e h Ht). simpl. rewrite Ht.
    destruct (handle srv e w) as [[ex|x] w']; [reflexivity|apply IH].
Qed.

(** ** The request primitive *)

Section Primitive.

Context (srv : server) (tok : pyval) (endpoint : string) (ps : pyval).

Let req := api_request tok endpoint ps.

Lemma run_api_request_bind {R} (k : pyval -> itree pyE R) (n : nat) (w : world) :
  self w = client_attrs tok ->
  run (4 + n) srv (ITree.bind (_make_api_request endpoint ps) k) w =
  match srv (req :: sent w) with
  | inl ex => (Raised ex, after req w)
  | inr resp =>
      run n srv
        (ITree.bind (if status_code resp =? 200 then json resp else Ret PNone) k)
        (after req w)
  end.
Proof.
  intros Hw. unfold _make_api_request, getattr.
  change (4 + n)%nat with (S (S (S (S n)))).
  rewrite run_bind_bind, run_bind_trigger. unfold handle at 1. rewrite Hw.
  change (dict_get (client_attrs tok) "base_url") with (Some (PStr base_url_value)).
  cbv beta iota.
  change (py_add (PStr base_url_value) (PStr endpoint))
    with (@inr exn pyval (PStr (base_url_value ++ endpoint))).
  rewrite run_bind_bind, run_bind_lift_ok.
  rewrite run_bind_bind, run_bind_trigger. unfold handle at 1. rewrite Hw.
  change (dict_get (client_attrs tok) "access_token") with (Some tok).
  cbv beta iota.
  rewrite run_bind_bind, run_bind_trigger. unfold handle at 1. rewrite Hw.
  change (dict_get (client_attrs tok) "user_agent") with (Some (PStr user_agent_value)).
  cbv beta iota zeta.
  rewrite run_bind_bind, run_bind_trigger. unfold handle at 1.
  unfold send. cbv zeta.
  reflexivity.
Qed.

Lemma run_api_request (n : nat) (w : world) :
  self w = client_attrs tok ->
  run (4 + n) srv (_make_api_request endpoint ps) w =
  match srv (req :: sent w) with
  | inl ex => (Raised ex, after req w)
  | inr resp =>
      run n srv (if status_code resp =? 200 then json resp else Ret PNone)
        (after req w)
  end.
Proof.
  intros Hw. rewrite <- run_bind_ret_r. rewrite run_api_request_bind by exact Hw.
  destruct (srv (req :: sent w)); [reflexivity|apply run_bind_ret_r].
Qed.

(** With less fuel than its four events need, nothing has been sent. *)
Lemma run_api_request_short (n : nat) (w : world) :
  self w = client_attrs tok -> (n < 4)%nat ->
  run n srv (_make_api_request endpoint ps) w = (OutOfFuel, w).
Proof.
  intros Hw Hn. unfold _make_api_request, getattr.
  destruct n as [|n]; [reflexivity|].
  rewrite run_bind_trigger. unfold handle at 1. rewrite Hw.
  change (dict_get (client_attrs tok) "base_url") with (Some (PStr base_url_value)).
  cbv beta iota.
  change (py_add (PStr base_url_value) (PStr endpoint))
    with (@inr exn pyval (PStr (base_url_value ++ endpoint))).
  rewrite run_bind_lift_ok.
  destruct n as [|n]; [reflexivity|].
  rewrite run_bind_trigger. unfold handle at 1. rewrite Hw.
  change (dict_get (client_attrs tok) "access_token") with (Some tok).
  cbv beta iota.
  destruct n as [|n]; [reflexivity|].
  rewrite run_bind_trigger. unfold handle at 1. rewrite Hw.
  change (dict_get (client_attrs tok) "user_agent") with (Some (PStr user_agent_value)).
  cbv beta iota zeta.
  destruct n as [|n]; [reflexivity|lia].
Qed.

Lemma run_answer (n : nat) (resp : response) (w : world) o w' :
  run n srv (if status_code resp =? 200 then json resp else Ret PNone) w = (o, w') ->
  w' = w.
Proof.
  intros H. destruct (status_code resp =? 200).
  - unfold json in H. destruct (json_body resp).
    + rewrite run_ret in H. inversion H; reflexivity.
    + destruct n; simpl in H; inversion H; reflexivity.
  - rewrite run_ret in H. inversion H; reflexivity.
Qed.

(** However long it runs, the primitive sends nothing or the one request
    [req], and leaves the attributes alone. *)
Lemma api_request_world (n : nat) (w : world) o w' :
  self w = client_attrs tok ->
  run n srv (_make_api_request endpoint ps) w = (o, w') ->
  w' = w \/ w' = after req w.
Proof.
  intros Hw H. destruct (Nat.lt_ge_cases n 4) as [Hn|Hn].
  - rewrite (run_api_request_short n w Hw Hn) in H. left. inversion H; reflexivity.
  - right. replace n with (4 + (n - 4))%nat in H by lia.
    rewrite (run_api_request _ w Hw) in H.
    destruct (srv (req :: sent w)) as [ex|resp].
    + inversion H; reflexivity.
    + apply run_answer in H. exact H.
Qed.

Lemma preserves_api_request (P : request -> Prop) (base : list request) :
  P req -> preserves srv (trace_inv P tok base) (_make_api_request endpoint ps).
Proof.
  intros HP n w o w' [Hw (new & Hs & Hall)] H.
  destruct (api_request_world n w o w' Hw H) as [->| ->].
  - split; [exact Hw|]. exists new. auto.
  - split; [exact Hw|]. exists (req :: new). split.
    + simpl. rewrite Hs. reflexivity.
    + constructor; assumption.
Qed.

Lemma api_returns_body (w : world) (B : pyval) :
  self w = client_attrs tok ->
  srv (req :: sent w) = inr (mkResponse 200 (Some B)) ->
  returns srv (_make_api_request endpoint ps) w B (after req w).
Proof.
  intros Hw Hs. apply (returns_of_run srv (4 + 0)).
  rewrite (run_api_request 0 w Hw), Hs. reflexivity.
Qed.

Lemma api_returns_none (w : world) (st : Z) (body : option pyval) :
  self w = client_attrs tok ->
  srv (req :: sent w) = inr (mkResponse st body) -> st <> 200 ->
  returns srv (_make_api_request endpoint ps) w PNone (after req w).
Proof.
  intros Hw Hs Hst. apply (returns_of_run srv (4 + 0)).
  rewrite (run_api_request 0 w Hw), Hs. simpl status_code.
  apply Z.eqb_neq in Hst. rewrite Hst. reflexivity.
Qed.

Lemma api_raises_undecodable (w : world) :
  self w = client_attrs tok ->
  srv (req :: sent w) = inr (mkResponse 200 None) ->
  raises srv (_make_api_request endpoint ps) w JSONDecodeError (after req w).
Proof.
  intros Hw Hs. apply (raises_of_run srv (4 + 1)).
  rewrite (run_api_request 1 w Hw), Hs. reflexivity.
Qed.

Lemma api_raises_unreachable (w : world) (ex : exn) :
  self w = client_attrs tok ->
  srv (req :: sent w) = inl ex ->
  raises srv (_make_api_request endpoint ps) w ex (after req w).
Proof.
  intros Hw Hs. apply (raises_of_run srv (4 + 0)).
  rewrite (run_api_request 0 w Hw), Hs. reflexivity.
Qed.

End Primitive.

(** C1. For every endpoint and parameter map, on a constructed client whose
    GET is answered with status [st] and a body that decodes to [B],
    [_make_api_request] returns [B] when [st] is 200 and [None] when it is
    not; and it returns something other than [None] only when [st] is 200,
    and then the decoded body. *)
Theorem make_api_request_status (srv : server) (tok : pyval) (endpoint : string)
  (ps : pyval) (w : world) (st : Z) (B : pyval) :
  self w = client_attrs tok ->
  srv (api_request tok endpoint ps :: sent w) = inr (mkResponse st (Some B)) ->
  (st = 200 ->
   returns srv (_make_api_request endpoint ps) w B
     (after (api_request tok endpoint ps) w)) /\
  (st <> 200 ->
   returns srv (_make_api_request endpoint ps) w PNone
     (after (api_request tok endpoint ps) w)) /\
  (forall r w', returns srv (_make_api_request endpoint ps) w r w' ->
                r <> PNone -> st = 200 /\ r = B).
Proof.
  intros Hw Hs. split; [|split].
  - intros ->. apply api_returns_body; assumption.
  - intros Hst. eapply api_returns_none; eassumption.
  - intros r w' Hr Hnone. destruct (Z.eq_dec st 200) as [->|Hst].
    + split; [reflexivity|].
      destruct (returns_fun srv _ _ _ _ _ _ Hr
                  (api_returns_body srv tok endpoint ps w B Hw Hs)) as [-> _].
      reflexivity.
    + destruct (returns_fun srv _ _ _ _ _ _ Hr
                  (api_returns_none srv tok endpoint ps w st _ Hw Hs Hst)) as [-> _].
      congruence.
Qed.

(** ** Single steps *)

Section Steps.

Context (srv : server).

Lemma run_bind_out_of_fuel {A R} (n : nat) :
  forall (t : itree pyE A) (k : A -> itree pyE R) w w1,
    run n srv t w = (OutOfFuel, w1) ->
    run n srv (ITree.bind t k) w = (OutOfFuel, w1).
Proof.
  induction n as [|n IH]; intros t k w w1 Ht;
    destruct (observe t) as [a|t'|X ev h] eqn:Hobs.
  - simpl in Ht. rewrite Hobs in Ht. discriminate.
  - rewrite (run_bind_is_tau srv _ t k w t' Hobs).
    simpl in Ht. rewrite Hobs in Ht. inversion Ht. reflexivity.
  - rewrite (run_bind_is_vis srv _ t k w ev h Hobs).
    simpl in Ht. rewrite Hobs in Ht. inversion Ht. reflexivity.
  - simpl in Ht. rewrite Hobs in Ht. discriminate.
  - rewrite (run_bind_is_tau srv _ t k w t' Hobs), run_tau.
    simpl in Ht. rewrite Hobs in Ht. apply IH, Ht.
  - rewrite (run_bind_is_vis srv _ t k w ev h Hobs).
    simpl in Ht. rewrite Hobs in Ht. simpl.
    destruct (handle srv ev w) as [[ex|x] w']; [discriminate|apply IH, Ht].
Qed.

Lemma getattr_returns (name : string) (v : pyval) (w : world) :
  dict_get (self w) name = Some v -> returns srv (getattr name) w v w.
Proof.
  intros H. apply (returns_of_run srv 1). simpl. rewrite H. reflexivity.
Qed.

Lemma lift_returns {R} (r : R) (w : world) : returns srv (lift (inr r)) w r w.
Proof. apply (returns_of_run srv 0). reflexivity. Qed.

Lemma lift_raises {R} (e : exn) (w : world) :
  raises srv (lift (@inl exn R e)) w e w.
Proof. apply (raises_of_run srv 1). reflexivity. Qed.

Lemma ret_returns {R} (r : R) (w : world) : returns srv (Ret r) w r w.
Proof. apply (returns_of_run srv 0). reflexivity. Qed.

End Steps.

Lemma sends_after (r : request) (k : nat) (w : world) :
  sends r k (after r w) = sends r (S k) w.
Proof.
  unfold sends, after. simpl. f_equal.
  change (r :: repeat r k ++ sent w)%list with ((r :: repeat r k) ++ sent w)%list.
  rewrite repeat_cons, <- app_assoc. reflexivity.
Qed.

Lemma after_sends (r : request) (k : nat) (w : world) :
  after r (sends r k w) = sends r (S k) w.
Proof. reflexivity. Qed.

Lemma sends_zero (r : request) (w : world) : sends r 0 w = w.
Proof. destruct w; reflexivity. Qed.

Lemma ceil_div_spec (total limit : Z) :
  0 < limit ->
  (ceil_div total limit - 1) * limit < total <= ceil_div total limit * limit.
Proof.
  intros Hl. unfold ceil_div.
  pose proof (Z.div_mod (total + limit - 1) limit ltac:(lia)) as Hd.
  pose proof (Z.mod_pos_bound (total + limit - 1) limit Hl) as Hm.
  nia.
Qed.

(** ** The pagination loops *)

Lemma is_page_not_none (body : pyval) (rs : list pyval) (total : Z) :
  is_page body rs total -> is_none body = false.
Proof. intros [H _]. destruct body; try discriminate; reflexivity. Qed.

Section Paging.

Context (srv : server) (tok : pyval) (limit : Z).

(** What is left of a turn once the answer is a page. *)
Lemma page_turn {R} (body : pyval) (rs : list pyval) (total : Z)
  (offset : Z) (resultados : list pyval) (yes no : paging_state -> R) (w : world) :
  is_page body rs total ->
  returns srv
    (results <- lift (subscript body "results") ;;
     page <- lift (iterate results) ;;
     paging <- lift (subscript body "paging") ;;
     total <- lift (subscript paging "total") ;;
     reached <- lift (int_ge (offset + limit) total) ;;
     if reached : bool then Ret (yes (offset + limit, (resultados ++ page)%list))
     else Ret (no (offset + limit, (resultados ++ page)%list)))
    w
    (if total <=? offset + limit
     then yes (offset + limit, (resultados ++ rs)%list)
     else no (offset + limit, (resultados ++ rs)%list))
    w.
Proof.
  intros [Hres (paging & Hp & Ht)]. apply (returns_of_run srv 0).
  rewrite Hres, run_bind_lift_ok.
  change (iterate (PList rs)) with (@inr exn _ rs). rewrite run_bind_lift_ok.
  rewrite Hp, run_bind_lift_ok. rewrite Ht, run_bind_lift_ok.
  change (int_ge (offset + limit) (PInt total))
    with (@inr exn _ (total <=? offset + limit)).
  rewrite run_bind_lift_ok.
  destruct (total <=? offset + limit); apply run_ret.
Qed.

Lemma produtos_turn_page (kw body : pyval) (rs : list pyval) (total : Z)
  (offset : Z) (resultados : list pyval) (w : world) :
  self w = client_attrs tok ->
  srv (produtos_request tok limit kw :: sent w) = inr (mkResponse 200 (Some body)) ->
  is_page body rs total ->
  returns srv (produtos_body kw limit (offset, resultados)) w
    (inr (offset + limit, (resultados ++ rs)%list))
    (after (produtos_request tok limit kw) w).
Proof.
  intros Hw Hs Hpage. unfold produtos_body.
  eapply returns_bind; [apply api_returns_body; eassumption|].
  rewrite (is_page_not_none _ _ _ Hpage).
  pose proof (page_turn body rs total offset resultados
                (@inr paging_state paging_state) (@inr paging_state paging_state)
                (after (produtos_request tok limit kw) w) Hpage) as H.
  destruct (total <=? offset + limit); exact H.
Qed.

Lemma produtos_turn_none (kw : pyval) (st : Z) (b : option pyval)
  (offset : Z) (resultados : list pyval) (w : world) :
  self w = client_attrs tok ->
  srv (produtos_request tok limit kw :: sent w) = inr (mkResponse st b) -> st <> 200 ->
  returns srv (produtos_body kw limit (offset, resultados)) w
    (inl (offset, resultados)) (after (produtos_request tok limit kw) w).
Proof.
  intros Hw Hs Hst. unfold produtos_body.
  eapply returns_bind; [eapply api_returns_none; eassumption|].
  apply ret_returns.
Qed.

Lemma category_turn_page (cat body : pyval) (rs : list pyval) (total : Z)
  (offset : Z) (resultados : list pyval) (w : world) :
  self w = client_attrs tok ->
  srv (category_request tok limit cat :: sent w) = inr (mkResponse 200 (Some body)) ->
  is_page body rs total ->
  returns srv (category_body cat limit (offset, resultados)) w
    (if total <=? offset + limit
     then inr (offset + limit, (resultados ++ rs)%list)
     else inl (offset + limit, (resultados ++ rs)%list))
    (after (category_request tok limit cat) w).
Proof.
  intros Hw Hs Hpage. unfold category_body.
  eapply returns_bind; [apply api_returns_body; eassumption|].
  rewrite (is_page_not_none _ _ _ Hpage).
  exact (page_turn body rs total offset resultados
           (@inr paging_state paging_state) (@inl paging_state paging_state)
           (after (category_request tok limit cat) w) Hpage).
Qed.

Lemma category_turn_none (cat : pyval) (st : Z) (b : option pyval)
  (offset : Z) (resultados : list pyval) (w : world) :
  self w = client_attrs tok ->
  srv (category_request tok limit cat :: sent w) = inr (mkResponse st b) -> st <> 200 ->
  returns srv (category_body cat limit (offset, resultados)) w
    (inr (offset, resultados)) (after (category_request tok limit cat) w).
Proof.
  intros Hw Hs Hst. unfold category_body.
  eapply returns_bind; [eapply api_returns_none; eassumption|].
  apply ret_returns.
Qed.

End Paging.

Lemma diverges_bind_first {A R} (srv : server) (t : itree pyE A)
  (k : A -> itree pyE R) (w : world) :
  diverges srv t w -> diverges srv (ITree.bind t k) w.
Proof.
  intros D n. specialize (D n).
  destruct (run n srv t w) as [o w1] eqn:H. simpl in D. subst o.
  rewrite (run_bind_out_of_fuel srv n t k w w1 H). reflexivity.
Qed.

Section Retrying.

Context (srv : server) (tok kw : pyval) (limit : Z).
Hypothesis Hfail : always_fails srv.

(** A failed turn of [get_produtos_paginacao] costs five steps and leaves
    the loop where it was, with one more request sent. *)
Lemma produtos_retry (n : nat) (st : paging_state) (w : world) :
  self w = client_attrs tok ->
  run (5 + n) srv (ITree.iter (produtos_body kw limit) st) w =
  run n srv (ITree.iter (produtos_body kw limit) st)
    (after (produtos_request tok limit kw) w).
Proof.
  intros Hw. rewrite run_iter. destruct st as [offset resultados].
  unfold produtos_body at 1. rewrite run_bind_bind.
  change (5 + n)%nat with (4 + S n)%nat.
  rewrite (run_api_request_bind srv tok) by exact Hw.
  fold (produtos_request tok limit kw).
  destruct (Hfail (produtos_request tok limit kw :: sent w)) as (st & b & Hs & Hst).
  rewrite Hs. simpl status_code. apply Z.eqb_neq in Hst. rewrite Hst.
  rewrite run_bind_ret. change (is_none PNone) with true. cbv iota.
  rewrite run_bind_ret. reflexivity.
Qed.

Lemma produtos_retries (k : nat) (st : paging_state) (w : world) :
  self w = client_attrs tok ->
  run (5 * k) srv (ITree.iter (produtos_body kw limit) st) w =
  (OutOfFuel, sends (produtos_request tok limit kw) k w).
Proof.
  revert w. induction k as [|k IH]; intros w Hw.
  - rewrite sends_zero. rewrite run_iter. destruct st as [offset resultados].
    reflexivity.
  - replace (5 * S k)%nat with (5 + 5 * k)%nat by lia.
    rewrite produtos_retry by exact Hw.
    rewrite IH by exact Hw. rewrite sends_after. reflexivity.
Qed.

Lemma produtos_diverges (w : world) :
  self w = client_attrs tok ->
  diverges srv (get_produtos_paginacao kw limit) w.
Proof.
  intros Hw. unfold get_produtos_paginacao. apply diverges_bind_first.
  apply (diverges_iter srv (produtos_body kw limit)
           (fun _ w => self w = client_attrs tok)); [|exact Hw].
  intros [offset resultados] w1 Hw1.
  destruct (Hfail (produtos_request tok limit kw :: sent w1)) as (st & b & Hs & Hst).
  exists (offset, resultados), (after (produtos_request tok limit kw) w1).
  split; [|exact Hw1].
  eapply produtos_turn_none; eassumption.
Qed.

Lemma category_gives_up (cat : pyval) (w : world) :
  self w = client_attrs tok ->
  returns srv (get_items_by_category_paging cat limit) w (PList [])
    (after (category_request tok limit cat) w).
Proof.
  intros Hw. unfold get_items_by_category_paging.
  destruct (Hfail (category_request tok limit cat :: sent w)) as (st & b & Hs & Hst).
  eapply returns_bind.
  - apply returns_iter_break. eapply category_turn_none; eassumption.
  - apply ret_returns.
Qed.

End Retrying.

Lemma repeat_snoc_app {A} (a : A) (n : nat) (l : list A) :
  (repeat a n ++ a :: l = repeat a (S n) ++ l)%list.
Proof.
  change (repeat a (S n)) with (a :: repeat a n).
  rewrite repeat_cons, <- app_assoc. reflexivity.
Qed.

Lemma map_const_seq {A} (x : A) (a k : nat) :
  map (fun _ => x) (seq a k) = repeat x k.
Proof.
  revert a. induction k as [|k IH]; intros a; simpl; [|rewrite IH]; reflexivity.
Qed.

Lemma concat_repeat_snoc {A} (xs : list A) (k : nat) :
  (concat (repeat xs k) ++ xs = concat (repeat xs (S k)))%list.
Proof.
  induction k as [|k IH]; simpl.
  - rewrite app_nil_r. reflexivity.
  - rewrite <- app_assoc. simpl in IH. rewrite IH. reflexivity.
Qed.

Section CategoryLoop.

Context (srv : server) (tok cat : pyval) (limit : Z).

Let req := category_request tok limit cat.
Let body := category_body cat limit.

(** [k] turns that each get a page short of its total take the loop [k]
    pages further. *)
Lemma category_loop_pages (k : nat) :
  forall (pages : nat -> list pyval) (totals : nat -> Z) offset resultados w r w2,
    self w = client_attrs tok ->
    (forall i, (i < k)%nat ->
       exists b, srv (repeat req (S i) ++ sent w)%list = inr (mkResponse 200 (Some b)) /\
                 is_page b (pages i) (totals i) /\
                 offset + (Z.of_nat i + 1) * limit < totals i) ->
    returns srv
      (ITree.iter body (offset + Z.of_nat k * limit,
                        (resultados ++ concat (map pages (seq 0 k)))%list))
      (sends req k w) r w2 ->
    returns srv (ITree.iter body (offset, resultados)) w r w2.
Proof.
  induction k as [|k IH]; intros pages totals offset resultados w r w2 Hw Hp Hr.
  - simpl in Hr. rewrite sends_zero, Z.add_0_r, app_nil_r in Hr. exact Hr.
  - destruct (Hp 0%nat (Nat.lt_0_succ k)) as (b & Hs & Hpage & Hlt).
    pose proof (category_turn_page srv tok limit cat b (pages 0%nat) (totals 0%nat)
                  offset resultados w Hw Hs Hpage) as Hturn.
    replace (totals 0%nat <=? offset + limit) with false in Hturn
      by (symmetry; apply Z.leb_gt; lia).
    eapply returns_iter_again; [exact Hturn|].
    apply (IH (fun i => pages (S i)) (fun i => totals (S i))).
    + exact Hw.
    + intros i Hi. destruct (Hp (S i) ltac:(lia)) as (b' & Hs' & Hpage' & Hlt').
      exists b'. split; [|split].
      * simpl sent. fold req. rewrite repeat_snoc_app. exact Hs'.
      * exact Hpage'.
      * lia.
    + fold req. rewrite sends_after.
      replace (offset + limit + Z.of_nat k * limit)
        with (offset + Z.of_nat (S k) * limit) by lia.
      rewrite <- app_assoc.
      replace (pages 0%nat ++ concat (map (fun i => pages (S i)) (seq 0 k)))%list
        with (concat (map pages (seq 0 (S k)))).
      * exact Hr.
      * simpl. rewrite <- seq_shift, map_map. reflexivity.
Qed.

(** The loop ends when a request fails, with the pages it has. *)
Lemma category_stops_on_failure (k : nat) (pages : nat -> list pyval)
  (totals : nat -> Z) (w : world) :
  self w = client_attrs tok ->
  (forall i, (i < k)%nat ->
     exists b, srv (repeat req (S i) ++ sent w)%list = inr (mkResponse 200 (Some b)) /\
               is_page b (pages i) (totals i) /\
               (Z.of_nat i + 1) * limit < totals i) ->
  (exists st b, srv (repeat req (S k) ++ sent w)%list = inr (mkResponse st b) /\
                st <> 200) ->
  returns srv (get_items_by_category_paging cat limit) w
    (PList (concat (map pages (seq 0 k)))) (sends req (S k) w).
Proof.
  intros Hw Hp (st & b & Hs & Hst). unfold get_items_by_category_paging.
  eapply returns_bind.
  - apply (category_loop_pages k pages totals 0 [] w _ _ Hw).
    + intros i Hi. destruct (Hp i Hi) as (b' & H1 & H2 & H3).
      exists b'. split; [exact H1|]. split; [exact H2|lia].
    + apply returns_iter_break.
      eapply category_turn_none; [exact Hw|exact Hs|exact Hst].
  - apply ret_returns.
Qed.

(** Against a server that always answers with the same page, the loop
    ends after the number of pages that hold the total. *)
Lemma category_exhausts (b : pyval) (rs : list pyval) (total : Z) (w : world) :
  self w = client_attrs tok ->
  0 < limit -> 0 < total ->
  (forall log, srv log = inr (mkResponse 200 (Some b))) ->
  is_page b rs total ->
  returns srv (get_items_by_category_paging cat limit) w
    (PList (concat (repeat rs (Z.to_nat (ceil_div total limit)))))
    (sends req (Z.to_nat (ceil_div total limit)) w).
Proof.
  intros Hw Hl Ht Hs Hpage.
  pose proof (ceil_div_spec total limit Hl) as Hc.
  assert (Hn : 1 <= ceil_div total limit) by nia.
  destruct (Z.to_nat (ceil_div total limit)) as [|k] eqn:Hk; [lia|].
  assert (Hk' : ceil_div total limit = Z.of_nat k + 1) by lia.
  unfold get_items_by_category_paging.
  pose proof (category_turn_page srv tok limit cat b rs total
                (0 + Z.of_nat k * limit)
                ([] ++ concat (map (fun _ => rs) (seq 0 k)))%list
                (sends req k w) Hw (Hs _) Hpage) as Hturn.
  replace (total <=? 0 + Z.of_nat k * limit + limit) with true in Hturn
    by (symmetry; apply Z.leb_le; nia).
  eapply returns_bind.
  - apply (category_loop_pages k (fun _ => rs) (fun _ => total) 0 [] w _ _ Hw).
    + intros i Hi. exists b. split; [apply Hs|]. split; [exact Hpage|nia].
    + apply returns_iter_break. exact Hturn.
  - simpl snd. rewrite map_const_seq. simpl app.
    rewrite concat_repeat_snoc. apply ret_returns.
Qed.

End CategoryLoop.

(** With a limit that is not positive the offset never reaches a positive
    total. *)
Lemma category_never_exhausts (srv : server) (tok cat : pyval) (limit : Z)
  (b : pyval) (rs : list pyval) (total : Z) (w : world) :
  self w = client_attrs tok ->
  limit <= 0 -> 0 < total ->
  (forall log, srv log = inr (mkResponse 200 (Some b))) ->
  is_page b rs total ->
  diverges srv (get_items_by_category_paging cat limit) w.
Proof.
  intros Hw Hl Ht Hs Hpage. unfold get_items_by_category_paging.
  apply diverges_bind_first.
  apply (diverges_iter srv (category_body cat limit)
           (fun st w => self w = client_attrs tok /\ fst st <= 0)).
  - intros [offset resultados] w1 [Hw1 Hoff]. simpl in Hoff.
    pose proof (category_turn_page srv tok limit cat b rs total offset resultados
                  w1 Hw1 (Hs _) Hpage) as Hturn.
    replace (total <=? offset + limit) with false in Hturn
      by (symmetry; apply Z.leb_gt; lia).
    eexists; eexists. split; [exact Hturn|].
    split; [exact Hw1|simpl; lia].
  - split; [exact Hw|simpl; lia].
Qed.

Section Traces.

Context (srv : server) (tok : pyval) (P : request -> Prop) (base : list request).

Ltac keeps :=
  repeat first
    [ apply preserves_ret
    | apply preserves_lift
    | apply preserves_getattr
    | apply preserves_bind; [|intros ?]
    | match goal with
      | |- preserves _ _ (if ?c then _ else _) => destruct c
      end ].

Lemma produtos_preserves (kw : pyval) (limit : Z) :
  P (produtos_request tok limit kw) ->
  preserves srv (trace_inv P tok base) (get_produtos_paginacao kw limit).
Proof.
  intros HP. unfold get_produtos_paginacao.
  apply preserves_bind; [|intros ?; apply preserves_ret].
  apply preserves_iter. intros [offset resultados]. unfold produtos_body.
  apply preserves_bind; [apply preserves_api_request; exact HP|intros a].
  keeps.
Qed.

Lemma category_preserves (cat : pyval) (limit : Z) :
  P (category_request tok limit cat) ->
  preserves srv (trace_inv P tok base) (get_items_by_category_paging cat limit).
Proof.
  intros HP. unfold get_items_by_category_paging.
  apply preserves_bind; [|intros ?; apply preserves_ret].
  apply preserves_iter. intros [offset resultados]. unfold category_body.
  apply preserves_bind; [apply preserves_api_request; exact HP|intros a].
  keeps.
Qed.

Hypothesis HP : forall endpoint ps, P (api_request tok endpoint ps).

Lemma call_preserves (q : query) :
  preserves srv (trace_inv P tok base) (call q).
Proof.
  destruct q; simpl call.
  - unfold get_vendas. apply preserves_bind; [apply preserves_getattr|intros a].
    apply preserves_api_request, HP.
  - unfold get_vendas_by_range.
    apply preserves_bind; [apply preserves_getattr|intros a].
    apply preserves_api_request, HP.
  - apply preserves_api_request, HP.
  - apply produtos_preserves, HP.
  - unfold get_items_details.
    apply preserves_bind; [apply preserves_api_request, HP|intros a]. keeps.
  - apply preserves_api_request, HP.
  - apply preserves_api_request, HP.
  - apply preserves_api_request, HP.
  - apply category_preserves, HP.
  - apply preserves_api_request, HP.
  - apply preserves_api_request, HP.
  - apply preserves_api_request, HP.
Qed.

Lemma session_preserves (calls : list (query * nat)) :
  forall w, trace_inv P tok base w -> trace_inv P tok base (session srv calls w).
Proof.
  induction calls as [|[q fuel] rest IH]; intros w Hw; simpl; [exact Hw|].
  apply IH. destruct (run fuel srv (call q) w) as [o w'] eqn:H.
  exact (call_preserves q fuel w o w' Hw H).
Qed.

End Traces.

Lemma trace_inv_start (P : request -> Prop) (tok : pyval) (w : world) :
  self w = client_attrs tok -> trace_inv P tok (sent w) w.
Proof. intros Hw. split; [exact Hw|]. exists []. split; [reflexivity|constructor]. Qed.

Lemma carries_api_request (tok : pyval) (endpoint : string) (ps : pyval) :
  carries tok (api_request tok endpoint ps).
Proof. split; reflexivity. Qed.

(** ** Construction *)

Lemma run_trigger {A} (srv : server) (n : nat) (e : pyE A) (w : world) :
  run (S n) srv (ITree.trigger e) w =
  match handle srv e w with
  | (inl ex, w') => (Raised ex, w')
  | (inr a, w') => (Returned a, w')
  end.
Proof.
  simpl. destruct (handle srv e w) as [[ex|a] w']; [reflexivity|apply run_ret].
Qed.

Lemma init_attrs (tok : pyval) :
  dict_set (dict_set (dict_set [] "access_token" tok)
              "base_url" (PStr base_url_value))
    "user_agent" (PStr user_agent_value) = client_attrs tok.
Proof. reflexivity. Qed.

Section Construction.

Context (srv : server) (client_id client_secret refresh_token : pyval).

Let treq := token_request client_id client_secret refresh_token.

Lemma run_init (n : nat) (w : world) :
  self w = [] ->
  run (4 + n) srv (__init__ client_id client_secret refresh_token) w =
  match srv (treq :: sent w) with
  | inl ex => (Raised ex, after treq w)
  | inr resp =>
      match json_body resp with
      | None => (Raised JSONDecodeError, after treq w)
      | Some token =>
          match subscript token "access_token" with
          | inl e => (Raised e, after treq w)
          | inr tok => (Returned tt, mkWorld (client_attrs tok) (treq :: sent w))
          end
      end
  end.
Proof.
  intros Hw. unfold __init__, _get_access_token, setattr. cbv zeta.
  change (4 + n)%nat with (S (S (S (S n)))).
  rewrite !run_bind_bind, run_bind_trigger.
  unfold handle at 1, send. cbv zeta. cbn [self sent].
  fold (token_request client_id client_secret refresh_token). fold treq.
  destruct (srv (treq :: sent w)) as [ex|resp]; [reflexivity|].
  unfold json. destruct (json_body resp) as [token|]; [|reflexivity].
  rewrite run_bind_bind, run_bind_ret.
  destruct (subscript token "access_token") as [e|tok]; [reflexivity|].
  rewrite run_bind_lift_ok.
  rewrite run_bind_trigger. unfold handle at 1. cbn [self sent]. rewrite Hw.
  rewrite run_bind_trigger. unfold handle at 1. cbn [self sent].
  rewrite run_trigger. unfold handle at 1. cbn [self sent].
  rewrite init_attrs. reflexivity.
Qed.

(** Construction succeeds only by storing the [access_token] of the
    answer to the token request. *)
Lemma init_returned (fuel : nat) (w w0 : world) :
  self w = [] ->
  run fuel srv (__init__ client_id client_secret refresh_token) w = (Returned tt, w0) ->
  exists st token tok,
    srv (treq :: sent w) = inr (mkResponse st (Some token)) /\
    subscript token "access_token" = inr tok /\
    w0 = mkWorld (client_attrs tok) (treq :: sent w).
Proof.
  intros Hw H.
  apply (run_mono srv fuel _ _ _ _) with (m := (4 + fuel)%nat) in H;
    [|discriminate|lia].
  rewrite (run_init fuel w Hw) in H.
  destruct (srv (treq :: sent w)) as [ex|[st [token|]]]; simpl in H;
    try discriminate.
  destruct (subscript token "access_token") as [e|tok] eqn:Ht; try discriminate.
  exists st, token, tok. inversion H. auto.
Qed.

End Construction.

(** ** The methods when the primitive returns [None] *)

Section Failing.

Context (srv : server) (tok : pyval) (w : world).
Hypothesis Hw : self w = client_attrs tok.
Hypothesis Hnone : primitive_fails srv w.

Lemma thin_returns_none (q : query) :
  thin q = true -> exists w', returns srv (call q) w PNone w'.
Proof.
  destruct q; intros Hq; try discriminate; simpl call; try apply Hnone.
  - unfold get_vendas.
    destruct (Hnone "orders/search"
                (PDict [("seller", seller_id); ("access_token", tok)])) as [w' Hr].
    exists w'. eapply returns_bind; [|exact Hr].
    apply getattr_returns. rewrite Hw. reflexivity.
  - unfold get_vendas_by_range.
    destruct (Hnone "orders/search"
                (PDict [("seller", seller_id);
                        ("order.date_created.from", PStr (dt_ini ++ "T00:00:00.000-00:00"));
                        ("order.date_created.to", PStr (dt_fim ++ "T23:59:59.000-00:00"));
                        ("access_token", tok)])) as [w' Hr].
    exists w'. eapply returns_bind; [|exact Hr].
    apply getattr_returns. rewrite Hw. reflexivity.
Qed.

Lemma category_returns_empty (cat : pyval) (limit : Z) :
  exists w', returns srv (get_items_by_category_paging cat limit) w (PList []) w'.
Proof.
  destruct (Hnone "sites/MLB/search"
              (PDict [("category", cat); ("limit", PInt limit); ("offset", PInt 0)]))
    as [w' Hr].
  exists w'. unfold get_items_by_category_paging.
  eapply returns_bind.
  - apply returns_iter_break. unfold category_body.
    eapply returns_bind; [exact Hr|]. apply ret_returns.
  - apply ret_returns.
Qed.

Lemma details_raises_on_none (id_produto : string) :
  exists w', raises srv (get_items_details id_produto) w TypeError w'.
Proof.
  destruct (Hnone ("items/" ++ id_produto) PNone) as [w' Hr].
  exists w'. unfold get_items_details.
  eapply raises_bind; [exact Hr|].
  apply (raises_of_run srv 1). reflexivity.
Qed.

End Failing.

Lemma always_fails_primitive (srv : server) (tok : pyval) (w : world) :
  always_fails srv -> self w = client_attrs tok -> primitive_fails srv w.
Proof.
  intros Hf Hw endpoint ps.
  destruct (Hf (api_request tok endpoint ps :: sent w)) as (st & b & Hs & Hst).
  eexists. eapply api_returns_none; eassumption.
Qed.

Lemma mock_always_fails (st : Z) (b : option pyval) :
  st <> 200 -> always_fails (mock_server st b).
Proof. intros Hst log. exists st, b. split; [reflexivity|exact Hst]. Qed.

(** ** The claims *)

(** C5. For every keyword and limit, when the first request is answered
    with status 200 and a page (a list of results and a [paging.total]),
    [get_produtos_paginacao] returns the results of that page, having sent
    exactly one request, whatever [limit] and the total are. *)
Theorem produtos_paginacao_one_page (srv : server) (tok kw : pyval) (limit : Z)
  (w : world) (body : pyval) (rs : list pyval) (total : Z) :
  self w = client_attrs tok ->
  srv (produtos_request tok limit kw :: sent w) = inr (mkResponse 200 (Some body)) ->
  is_page body rs total ->
  returns srv (get_produtos_paginacao kw limit) w (PList rs)
    (after (produtos_request tok limit kw) w).
Proof.
  intros Hw Hs Hpage. unfold get_produtos_paginacao.
  eapply returns_bind.
  - apply returns_iter_break. eapply produtos_turn_page; eassumption.
  - apply ret_returns.
Qed.

(** C10. When every request fails, [get_produtos_paginacao] never returns
    nor raises: after five steps per turn it has sent the same request once
    more and is back at the top of its loop; under the same condition
    [get_items_by_category_paging] returns the empty list after one
    request. *)
Theorem paginacao_when_every_request_fails (srv : server) (tok kw cat : pyval)
  (limit : Z) (w : world) :
  always_fails srv ->
  self w = client_attrs tok ->
  diverges srv (get_produtos_paginacao kw limit) w /\
  (forall k, snd (run (5 * k) srv (get_produtos_paginacao kw limit) w) =
             sends (produtos_request tok limit kw) k w) /\
  returns srv (get_items_by_category_paging cat limit) w (PList [])
    (after (category_request tok limit cat) w).
Proof.
  intros Hfail Hw. split; [|split].
  - apply (produtos_diverges srv tok kw limit Hfail w Hw).
  - intros k. unfold get_produtos_paginacao.
    rewrite (run_bind_out_of_fuel srv _ _ _ _ _
               (produtos_retries srv tok kw limit Hfail k (0, []) w Hw)).
    reflexivity.
  - apply (category_gives_up srv tok limit Hfail cat w Hw).
Qed.

(** C6, as amended. For every category and every positive limit: against a
    server that answers every request with the same page of results and the
    same positive total, [get_items_by_category_paging] returns after
    ceiling(total/limit) requests, all for offset 0, with the results of the
    page repeated that many times; and when a request fails after [k] pages
    that each fell short of their total, it returns the results of those [k]
    pages. *)
Theorem category_paging_positive_limit (srv : server) (tok cat : pyval)
  (limit : Z) (w : world) :
  self w = client_attrs tok ->
  0 < limit ->
  (forall b rs total,
     0 < total ->
     (forall log, srv log = inr (mkResponse 200 (Some b))) ->
     is_page b rs total ->
     returns srv (get_items_by_category_paging cat limit) w
       (PList (concat (repeat rs (Z.to_nat (ceil_div total limit)))))
       (sends (category_request tok limit cat) (Z.to_nat (ceil_div total limit)) w) /\
     offset_zero (category_request tok limit cat)) /\
  (forall k pages totals,
     (forall i, (i < k)%nat ->
        exists b, srv (repeat (category_request tok limit cat) (S i) ++ sent w)%list
                    = inr (mkResponse 200 (Some b)) /\
                  is_page b (pages i) (totals i) /\
                  (Z.of_nat i + 1) * limit < totals i) ->
     (exists st b, srv (repeat (category_request tok limit cat) (S k) ++ sent w)%list
                     = inr (mkResponse st b) /\ st <> 200) ->
     returns srv (get_items_by_category_paging cat limit) w
       (PList (concat (map pages (seq 0 k))))
       (sends (category_request tok limit cat) (S k) w)).
Proof.
  intros Hw Hl. split.
  - intros b rs total Ht Hs Hpage. split; [|reflexivity].
    apply category_exhausts with (b := b); assumption.
  - intros k pages totals Hp Hf.
    apply category_stops_on_failure with (totals := totals); assumption.
Qed.

(** C6 fails for a limit of 0: the offset stays at 0, below the total, and
    the loop never ends. *)
Lemma category_paging_limit_zero_loops :
  diverges (mock_server 200 (Some (page_body [PInt 1] 1)))
    (get_items_by_category_paging (PStr "MLB1051") 0) (client (PStr "TOKEN")) /\
  forall r w',
    ~ returns (mock_server 200 (Some (page_body [PInt 1] 1)))
        (get_items_by_category_paging (PStr "MLB1051") 0) (client (PStr "TOKEN")) r w'.
Proof.
  assert (D : diverges (mock_server 200 (Some (page_body [PInt 1] 1)))
                (get_items_by_category_paging (PStr "MLB1051") 0)
                (client (PStr "TOKEN"))).
  { apply (category_never_exhausts _ (PStr "TOKEN") _ 0 (page_body [PInt 1] 1)
             [PInt 1] 1).
    - reflexivity.
    - lia.
    - lia.
    - intros log. reflexivity.
    - split; [reflexivity|]. exists (PDict [("total", PInt 1)]).
      split; reflexivity. }
  split; [exact D|].
  intros r w' H. exact (diverges_not_returns _ _ _ _ _ D H).
Qed.

(** C3. When the item is answered with status 200 and a dictionary [d]:
    if [d] has a string [start_time], a [seller_id] and a [sold_quantity],
    [get_items_details] returns the tuple of the first 10 characters of
    [start_time], the [seller_id] and the [sold_quantity]; if [d] lacks one
    of the three, it raises: the [KeyError] of a missing field, which is the
    first of them that is missing when [start_time] is a string, or a
    [TypeError] when a [start_time] is there that cannot be sliced. *)
Theorem items_details_extraction (srv : server) (tok : pyval) (id_produto : string)
  (w : world) (d : list (string * pyval)) :
  self w = client_attrs tok ->
  srv (api_request tok ("items/" ++ id_produto) PNone :: sent w)
    = inr (mkResponse 200 (Some (PDict d))) ->
  (forall s sid sq,
     dict_get d "start_time" = Some (PStr s) ->
     dict_get d "seller_id" = Some sid ->
     dict_get d "sold_quantity" = Some sq ->
     returns srv (get_items_details id_produto) w
       (PTuple [PStr (str_take 10 s); sid; sq])
       (after (api_request tok ("items/" ++ id_produto) PNone) w)) /\
  (dict_get d "start_time" = None \/ dict_get d "seller_id" = None \/
   dict_get d "sold_quantity" = None ->
   exists e, raises srv (get_items_details id_produto) w e
               (after (api_request tok ("items/" ++ id_produto) PNone) w) /\
             ((exists k, e = KeyError k /\ dict_get d k = None) \/
              (e = TypeError /\ exists v, dict_get d "start_time" = Some v /\
                                          slice_to v 10 = inl TypeError))) /\
  (dict_get d "start_time" = None ->
   raises srv (get_items_details id_produto) w (KeyError "start_time")
     (after (api_request tok ("items/" ++ id_produto) PNone) w)) /\
  (forall s,
     dict_get d "start_time" = Some (PStr s) ->
     dict_get d "seller_id" = None ->
     raises srv (get_items_details id_produto) w (KeyError "seller_id")
       (after (api_request tok ("items/" ++ id_produto) PNone) w)) /\
  (forall s sid,
     dict_get d "start_time" = Some (PStr s) ->
     dict_get d "seller_id" = Some sid ->
     dict_get d "sold_quantity" = None ->
     raises srv (get_items_details id_produto) w (KeyError "sold_quantity")
       (after (api_request tok ("items/" ++ id_produto) PNone) w)).
Proof.
  intros Hw Hs.
  assert (Hdados : returns srv (_make_api_request ("items/" ++ id_produto) PNone) w
                     (PDict d) (after (api_request tok ("items/" ++ id_produto) PNone) w))
    by (apply api_returns_body; assumption).
  assert (Hstart : dict_get d "start_time" = None ->
                   raises srv (get_items_details id_produto) w (KeyError "start_time")
                     (after (api_request tok ("items/" ++ id_produto) PNone) w)).
  { intros H0. unfold get_items_details.
    eapply raises_bind; [exact Hdados|].
    apply (raises_of_run srv 1). unfold subscript. rewrite H0. reflexivity. }
  assert (Hseller : forall v date,
            dict_get d "start_time" = Some v -> slice_to v 10 = inr date ->
            dict_get d "seller_id" = None ->
            raises srv (get_items_details id_produto) w (KeyError "seller_id")
              (after (api_request tok ("items/" ++ id_produto) PNone) w)).
  { intros v date H0 Hv H1. unfold get_items_details.
    eapply raises_bind; [exact Hdados|].
    apply (raises_of_run srv 1). unfold subscript. rewrite H0, run_bind_lift_ok.
    rewrite Hv, run_bind_lift_ok. rewrite H1. reflexivity. }
  assert (Hsold : forall v date sid,
            dict_get d "start_time" = Some v -> slice_to v 10 = inr date ->
            dict_get d "seller_id" = Some sid ->
            dict_get d "sold_quantity" = None ->
            raises srv (get_items_details id_produto) w (KeyError "sold_quantity")
              (after (api_request tok ("items/" ++ id_produto) PNone) w)).
  { intros v date sid H0 Hv H1 H2. unfold get_items_details.
    eapply raises_bind; [exact Hdados|].
    apply (raises_of_run srv 1). unfold subscript. rewrite H0, run_bind_lift_ok.
    rewrite Hv, run_bind_lift_ok. rewrite H1, run_bind_lift_ok.
    rewrite H2. reflexivity. }
  assert (Hslice : forall v,
            dict_get d "start_time" = Some v -> slice_to v 10 = inl TypeError ->
            raises srv (get_items_details id_produto) w TypeError
              (after (api_request tok ("items/" ++ id_produto) PNone) w)).
  { intros v H0 Hv. unfold get_items_details.
    eapply raises_bind; [exact Hdados|].
    apply (raises_of_run srv 1). unfold subscript. rewrite H0, run_bind_lift_ok.
    rewrite Hv. reflexivity. }
  split; [|split; [|split; [|split]]].
  - intros s sid sq H0 H1 H2. unfold get_items_details.
    eapply returns_bind; [exact Hdados|].
    apply (returns_of_run srv 0). unfold subscript.
    rewrite H0, run_bind_lift_ok.
    change (slice_to (PStr s) 10) with (@inr exn _ (PStr (str_take 10 s))).
    rewrite run_bind_lift_ok. rewrite H1, run_bind_lift_ok.
    rewrite H2, run_bind_lift_ok. apply run_ret.
  - intros Habsent.
    destruct (dict_get d "start_time") as [v|] eqn:H0.
    2:{ exists (KeyError "start_time"). split; [apply Hstart; reflexivity|].
        left. exists "start_time". auto. }
    destruct (slice_to v 10) as [e|date] eqn:Hv.
    { assert (He : slice_to v 10 = inl TypeError)
        by (destruct v; try discriminate; reflexivity).
      exists TypeError. split; [apply (Hslice v eq_refl He)|].
      right. split; [reflexivity|]. exists v. auto. }
    destruct (dict_get d "seller_id") as [sid|] eqn:H1.
    2:{ exists (KeyError "seller_id"). split; [apply (Hseller v date); auto|].
        left. exists "seller_id". auto. }
    destruct (dict_get d "sold_quantity") as [sq|] eqn:H2.
    2:{ exists (KeyError "sold_quantity").
        split; [apply (Hsold v date sid); auto|].
        left. exists "sold_quantity". auto. }
    destruct Habsent as [H|[H|H]]; discriminate.
  - exact Hstart.
  - intros s H0 H1. apply (Hseller (PStr s) (PStr (str_take 10 s))); auto.
  - intros s sid H0 H1 H2. apply (Hsold (PStr s) (PStr (str_take 10 s)) sid); auto.
Qed.

(** C7. On a constructed client, once [get_vendas_by_range] has run its
    five steps it has sent one GET to [orders/search] whose parameters hold
    the seller, [dt_ini] followed by [T00:00:00.000-00:00] as
    [order.date_created.from], and [dt_fim] followed by
    [T23:59:59.000-00:00] as [order.date_created.to]. *)
Theorem vendas_by_range_params (srv : server) (tok seller_id : pyval)
  (dt_ini dt_fim : string) (w : world) (fuel : nat) :
  self w = client_attrs tok ->
  (5 <= fuel)%nat ->
  exists ps,
    sent (snd (run fuel srv (get_vendas_by_range seller_id dt_ini dt_fim) w))
      = api_request tok "orders/search" ps :: sent w /\
    subscript ps "seller" = inr seller_id /\
    subscript ps "order.date_created.from"
      = inr (PStr (dt_ini ++ "T00:00:00.000-00:00")) /\
    subscript ps "order.date_created.to"
      = inr (PStr (dt_fim ++ "T23:59:59.000-00:00")).
Proof.
  intros Hw Hfuel.
  exists (PDict [("seller", seller_id);
                 ("order.date_created.from", PStr (dt_ini ++ "T00:00:00.000-00:00"));
                 ("order.date_created.to", PStr (dt_fim ++ "T23:59:59.000-00:00"));
                 ("access_token", tok)]).
  split; [|repeat split].
  replace fuel with (S (4 + (fuel - 5)))%nat by lia.
  unfold get_vendas_by_range, getattr. cbv zeta.
  rewrite run_bind_trigger. unfold handle at 1. rewrite Hw.
  change (dict_get (client_attrs tok) "access_token") with (Some tok).
  cbv beta iota.
  rewrite (run_api_request srv tok) by exact Hw.
  match goal with
  | |- context [srv ?l] => destruct (srv l) as [ex|resp]
  end; [reflexivity|].
  match goal with
  | |- context [run ?n srv ?t ?w1] =>
      destruct (run n srv t w1) as [o w'] eqn:H
  end.
  apply run_answer in H. subst w'. reflexivity.
Qed.

(** C9. When the token endpoint answers with a body that decodes to
    [token]: if [token] is a dictionary without [access_token],
    construction raises [KeyError], having sent the one request and set no
    attribute; if [token] has an [access_token], construction returns with
    that value stored as the client's access token. *)
Theorem token_exchange (srv : server) (client_id client_secret refresh_token : pyval)
  (w : world) (st : Z) (token : pyval) :
  self w = [] ->
  srv (token_request client_id client_secret refresh_token :: sent w)
    = inr (mkResponse st (Some token)) ->
  (forall d, token = PDict d -> dict_get d "access_token" = None ->
     raises srv (__init__ client_id client_secret refresh_token) w
       (KeyError "access_token")
       (after (token_request client_id client_secret refresh_token) w)) /\
  (forall v, subscript token "access_token" = inr v ->
     returns srv (__init__ client_id client_secret refresh_token) w tt
       (mkWorld (client_attrs v)
          (token_request client_id client_secret refresh_token :: sent w)) /\
     dict_get (client_attrs v) "access_token" = Some v).
Proof.
  intros Hw Hs. split.
  - intros d -> Hd. apply (raises_of_run srv (4 + 0)).
    rewrite (run_init srv _ _ _ 0 w Hw), Hs. simpl. rewrite Hd. reflexivity.
  - intros v Hv. split; [|reflexivity]. apply (returns_of_run srv (4 + 0)).
    rewrite (run_init srv _ _ _ 0 w Hw), Hs. simpl json_body. cbv iota.
    rewrite Hv. reflexivity.
Qed.

(** C2, as amended. When the request primitive returns [None]: each of the
    nine methods that hand its result back returns [None];
    [get_items_by_category_paging] returns the empty list; and
    [get_items_details] raises [TypeError]. *)
Theorem queries_when_primitive_fails (srv : server) (tok : pyval) (w : world) :
  self w = client_attrs tok ->
  primitive_fails srv w ->
  (forall q, thin q = true -> exists w', returns srv (call q) w PNone w') /\
  (forall cat limit,
     exists w', returns srv (get_items_by_category_paging cat limit) w (PList []) w') /\
  (forall id_produto,
     exists w', raises srv (get_items_details id_produto) w TypeError w').
Proof.
  intros Hw Hnone. split; [|split].
  - intros q. apply (thin_returns_none srv tok w Hw Hnone).
  - intros cat limit. apply (category_returns_empty srv w Hnone).
  - intros id_produto. apply (details_raises_on_none srv w Hnone).
Qed.

(** C2 fails for three methods: against a server that answers 404 to
    everything the primitive returns [None], but
    [get_items_by_category_paging], [get_items_details] and
    [get_produtos_paginacao] do not. *)
Lemma paging_and_details_do_not_return_none :
  primitive_fails (mock_server 404 None) (client (PStr "TOKEN")) /\
  (forall w', ~ returns (mock_server 404 None)
                  (get_items_by_category_paging (PStr "MLB1051") 50)
                  (client (PStr "TOKEN")) PNone w') /\
  (forall w', ~ returns (mock_server 404 None)
                  (get_items_details "MLB123")
                  (client (PStr "TOKEN")) PNone w') /\
  (forall w', ~ returns (mock_server 404 None)
                  (get_produtos_paginacao (PStr "celular") 50)
                  (client (PStr "TOKEN")) PNone w').
Proof.
  assert (Hf : always_fails (mock_server 404 None))
    by (apply mock_always_fails; discriminate).
  assert (Hn : primitive_fails (mock_server 404 None) (client (PStr "TOKEN")))
    by (apply (always_fails_primitive _ (PStr "TOKEN")); [exact Hf|reflexivity]).
  split; [exact Hn|]. split; [|split]; intros w' H.
  - destruct (category_returns_empty _ _ Hn (PStr "MLB1051") 50) as [w1 H1].
    destruct (returns_fun _ _ _ _ _ _ _ H H1) as [E _]. discriminate.
  - destruct (details_raises_on_none _ _ Hn "MLB123") as [w1 H1].
    exact (returns_not_raises _ _ _ _ _ _ _ H H1).
  - apply (diverges_not_returns _ _ _ _ _
             (produtos_diverges _ (PStr "TOKEN") (PStr "celular") 50 Hf
                (client (PStr "TOKEN")) eq_refl) H).
Qed.

(** C4. On a constructed client, whatever the server answers and however
    long they run, every request [get_produtos_paginacao] and
    [get_items_by_category_paging] send asks for offset 0; and a turn of
    either loop that gets a page sends the same request as any other and
    ends with the offset variable raised by [limit]. *)
Theorem paginated_requests_offset_zero (srv : server) (tok kw cat : pyval)
  (limit : Z) (w : world) :
  self w = client_attrs tok ->
  (forall fuel, exists new,
     sent (snd (run fuel srv (get_produtos_paginacao kw limit) w))
       = (new ++ sent w)%list /\ Forall offset_zero new) /\
  (forall fuel, exists new,
     sent (snd (run fuel srv (get_items_by_category_paging cat limit) w))
       = (new ++ sent w)%list /\ Forall offset_zero new) /\
  (forall offset resultados w1 b rs total,
     self w1 = client_attrs tok ->
     srv (produtos_request tok limit kw :: sent w1) = inr (mkResponse 200 (Some b)) ->
     is_page b rs total ->
     exists lr,
       returns srv (produtos_body kw limit (offset, resultados)) w1 lr
         (after (produtos_request tok limit kw) w1) /\
       fst (state_of lr) = offset + limit) /\
  (forall offset resultados w1 b rs total,
     self w1 = client_attrs tok ->
     srv (category_request tok limit cat :: sent w1) = inr (mkResponse 200 (Some b)) ->
     is_page b rs total ->
     exists lr,
       returns srv (category_body cat limit (offset, resultados)) w1 lr
         (after (category_request tok limit cat) w1) /\
       fst (state_of lr) = offset + limit).
Proof.
  intros Hw. split; [|split; [|split]].
  - intros fuel.
    destruct (run fuel srv (get_produtos_paginacao kw limit) w) as [o w'] eqn:H.
    destruct (produtos_preserves srv tok offset_zero (sent w) kw limit eq_refl
                fuel w o w' (trace_inv_start _ tok w Hw) H) as [_ Hnew].
    exact Hnew.
  - intros fuel.
    destruct (run fuel srv (get_items_by_category_paging cat limit) w) as [o w'] eqn:H.
    destruct (category_preserves srv tok offset_zero (sent w) cat limit eq_refl
                fuel w o w' (trace_inv_start _ tok w Hw) H) as [_ Hnew].
    exact Hnew.
  - intros offset resultados w1 b rs total Hw1 Hs Hpage. eexists. split.
    + eapply produtos_turn_page; eassumption.
    + reflexivity.
  - intros offset resultados w1 b rs total Hw1 Hs Hpage. eexists. split.
    + eapply category_turn_page; eassumption.
    + destruct (total <=? offset + limit); reflexivity.
Qed.

(** C8. Once construction has succeeded, the client holds the
    [access_token] of the answer to the token request, and whatever calls
    of query methods follow, each given any amount of fuel: the attributes
    of the client are what construction left, and every request sent since
    is a GET with that token as its [Authorization] header. *)
Theorem session_keeps_token (srv : server) (client_id client_secret refresh_token : pyval)
  (fuel : nat) (w0 : world) :
  run fuel srv (__init__ client_id client_secret refresh_token) fresh
    = (Returned tt, w0) ->
  exists st token tok,
    srv [token_request client_id client_secret refresh_token]
      = inr (mkResponse st (Some token)) /\
    subscript token "access_token" = inr tok /\
    self w0 = client_attrs tok /\
    forall calls,
      self (session srv calls w0) = self w0 /\
      exists new, sent (session srv calls w0) = (new ++ sent w0)%list /\
                  Forall (carries tok) new.
Proof.
  intros H.
  destruct (init_returned srv _ _ _ fuel fresh w0 eq_refl H)
    as (st & token & tok & Hs & Ht & ->).
  exists st, token, tok. split; [exact Hs|]. split; [exact Ht|].
  split; [reflexivity|]. intros calls.
  match goal with
  | |- context [session srv calls ?w] =>
      destruct (session_preserves srv tok (carries tok) (sent w)
                  (carries_api_request tok) calls w
                  (trace_inv_start _ tok w eq_refl)) as [Hself Hnew]
  end.
  split; [exact Hself|exact Hnew].
Qed.

(** ** The claims on a mocked server *)

Example run_get_items_details :
  fst (run 10
         (mock_server 200
            (Some (PDict [("start_time", PStr "2023-05-01T10:00:00Z");
                          ("seller_id", PInt 42); ("sold_quantity", PInt 7);
                          ("title", PStr "Celular")])))
         (get_items_details "MLB123") (client (PStr "TOKEN")))
  = Returned (PTuple [PStr "2023-05-01"; PInt 42; PInt 7]).
Proof. vm_compute. reflexivity. Qed.

Example run_get_items_details_not_found :
  fst (run 10 (mock_server 404 None) (get_items_details "MLB123")
         (client (PStr "TOKEN")))
  = Raised TypeError.
Proof. vm_compute. reflexivity. Qed.

Example run_category_paging_three_pages :
  run 100 (mock_server 200 (Some (page_body [PInt 1; PInt 2] 5)))
    (get_items_by_category_paging (PStr "MLB1051") 2) (client (PStr "TOKEN"))
  = (Returned (PList [PInt 1; PInt 2; PInt 1; PInt 2; PInt 1; PInt 2]),
     sends (category_request (PStr "TOKEN") 2 (PStr "MLB1051")) 3
       (client (PStr "TOKEN"))).
Proof. vm_compute. reflexivity. Qed.

Example run_produtos_paginacao_not_found :
  run 100 (mock_server 404 None)
    (get_produtos_paginacao (PStr "celular") 50) (client (PStr "TOKEN"))
  = (OutOfFuel,
     sends (produtos_request (PStr "TOKEN") 50 (PStr "celular")) 20
       (client (PStr "TOKEN"))).
Proof. vm_compute. reflexivity. Qed.

Example run_init_then_get_produtos :
  sent (session (mock_server 200 (Some (PDict [("access_token", PStr "TOKEN")])))
          [(Produtos (PStr "celular"), 10%nat)]
          (snd (run 10 (mock_server 200 (Some (PDict [("access_token", PStr "TOKEN")])))
                  (__init__ (PStr "id") (PStr "secret") (PStr "refresh")) fresh)))
  = [api_request (PStr "TOKEN") "sites/MLB/search" (PDict [("q", PStr "celular")]);
     token_request (PStr "id") (PStr "secret") (PStr "refresh")].
Proof. vm_compute. reflexivity. Qed.

Lemma page_body_is_page (rs : list pyval) (total : Z) :
  is_page (page_body rs total) rs total.
Proof.
  split; [reflexivity|]. exists (PDict [("total", PInt total)]).
  split; reflexivity.
Qed.

Lemma make_api_request_status_witness :
  returns (mock_server 200 (Some (PInt 5)))
    (_make_api_request "orders/search" PNone) (client (PStr "TOKEN")) (PInt 5)
    (after (api_request (PStr "TOKEN") "orders/search" PNone) (client (PStr "TOKEN"))) /\
  returns (mock_server 404 (Some (PStr "not found")))
    (_make_api_request "orders/search" PNone) (client (PStr "TOKEN")) PNone
    (after (api_request (PStr "TOKEN") "orders/search" PNone) (client (PStr "TOKEN"))).
Proof.
  split.
  - exact (proj1 (make_api_request_status (mock_server 200 (Some (PInt 5)))
                    (PStr "TOKEN") "orders/search" PNone (client (PStr "TOKEN"))
                    200 (PInt 5) eq_refl eq_refl) eq_refl).
  - apply (proj1 (proj2 (make_api_request_status
                           (mock_server 404 (Some (PStr "not found")))
                           (PStr "TOKEN") "orders/search" PNone
                           (client (PStr "TOKEN")) 404 (PStr "not found")
                           eq_refl eq_refl))).
    discriminate.
Defined.

Lemma queries_when_primitive_fails_witness :
  (exists w', returns (mock_server 500 None) (call (Produtos (PStr "celular")))
                (client (PStr "TOKEN")) PNone w') /\
  (exists w', returns (mock_server 500 None)
                (get_items_by_category_paging (PStr "MLB1051") 50)
                (client (PStr "TOKEN")) (PList []) w') /\
  (exists w', raises (mock_server 500 None) (get_items_details "MLB123")
                (client (PStr "TOKEN")) TypeError w').
Proof.
  pose proof (queries_when_primitive_fails (mock_server 500 None) (PStr "TOKEN")
                (client (PStr "TOKEN")) eq_refl
                (always_fails_primitive (mock_server 500 None) (PStr "TOKEN")
                   (client (PStr "TOKEN"))
                   (mock_always_fails 500 None ltac:(discriminate)) eq_refl))
    as [Hthin [Hcat Hdet]].
  split; [|split].
  - exact (Hthin (Produtos (PStr "celular")) eq_refl).
  - exact (Hcat (PStr "MLB1051") 50).
  - exact (Hdet "MLB123").
Defined.

Lemma items_details_extraction_witness :
  returns
    (mock_server 200
       (Some (PDict [("start_time", PStr "2023-05-01T10:00:00Z");
                     ("seller_id", PInt 42); ("sold_quantity", PInt 7)])))
    (get_items_details "MLB123") (client (PStr "TOKEN"))
    (PTuple [PStr "2023-05-01"; PInt 42; PInt 7])
    (after (api_request (PStr "TOKEN") "items/MLB123" PNone) (client (PStr "TOKEN"))).
Proof.
  exact (proj1 (items_details_extraction
                  (mock_server 200
                     (Some (PDict [("start_time", PStr "2023-05-01T10:00:00Z");
                                   ("seller_id", PInt 42);
                                   ("sold_quantity", PInt 7)])))
                  (PStr "TOKEN") "MLB123" (client (PStr "TOKEN"))
                  [("start_time", PStr "2023-05-01T10:00:00Z");
                   ("seller_id", PInt 42); ("sold_quantity", PInt 7)]
                  eq_refl eq_refl)
           "2023-05-01T10:00:00Z" (PInt 42) (PInt 7) eq_refl eq_refl eq_refl).
Defined.

Lemma paginated_requests_offset_zero_witness :
  exists new,
    sent (snd (run 40 (mock_server 200 (Some (page_body [PInt 1; PInt 2] 5)))
                 (get_items_by_category_paging (PStr "MLB1051") 2)
                 (client (PStr "TOKEN"))))
      = (new ++ [])%list /\ Forall offset_zero new.
Proof.
  exact (proj1 (proj2 (paginated_requests_offset_zero
                         (mock_server 200 (Some (page_body [PInt 1; PInt 2] 5)))
                         (PStr "TOKEN") (PStr "celular") (PStr "MLB1051") 2
                         (client (PStr "TOKEN")) eq_refl)) 40%nat).
Defined.

Lemma produtos_paginacao_one_page_witness :
  returns (mock_server 200 (Some (page_body [PInt 1; PInt 2] 5)))
    (get_produtos_paginacao (PStr "celular") 2) (client (PStr "TOKEN"))
    (PList [PInt 1; PInt 2])
    (after (produtos_request (PStr "TOKEN") 2 (PStr "celular")) (client (PStr "TOKEN"))).
Proof.
  exact (produtos_paginacao_one_page
           (mock_server 200 (Some (page_body [PInt 1; PInt 2] 5)))
           (PStr "TOKEN") (PStr "celular") 2 (client (PStr "TOKEN"))
           (page_body [PInt 1; PInt 2] 5) [PInt 1; PInt 2] 5
           eq_refl eq_refl (page_body_is_page [PInt 1; PInt 2] 5)).
Defined.

Lemma category_paging_positive_limit_witness :
  returns (mock_server 200 (Some (page_body [PInt 1; PInt 2] 5)))
    (get_items_by_category_paging (PStr "MLB1051") 2) (client (PStr "TOKEN"))
    (PList [PInt 1; PInt 2; PInt 1; PInt 2; PInt 1; PInt 2])
    (sends (category_request (PStr "TOKEN") 2 (PStr "MLB1051")) 3
       (client (PStr "TOKEN"))) /\
  returns (flaky_server 2 (page_body [PInt 1; PInt 2] 5))
    (get_items_by_category_paging (PStr "MLB1051") 2) (client (PStr "TOKEN"))
    (PList [PInt 1; PInt 2; PInt 1; PInt 2])
    (sends (category_request (PStr "TOKEN") 2 (PStr "MLB1051")) 3
       (client (PStr "TOKEN"))).
Proof.
  split.
  - refine (proj1 (proj1 (category_paging_positive_limit
                     (mock_server 200 (Some (page_body [PInt 1; PInt 2] 5)))
                     (PStr "TOKEN") (PStr "MLB1051") 2 (client (PStr "TOKEN"))
                     eq_refl eq_refl)
              (page_body [PInt 1; PInt 2] 5) [PInt 1; PInt 2] 5 eq_refl
              (fun _ => eq_refl) (page_body_is_page [PInt 1; PInt 2] 5))).
  - refine (proj2 (category_paging_positive_limit
                     (flaky_server 2 (page_body [PInt 1; PInt 2] 5))
                     (PStr "TOKEN") (PStr "MLB1051") 2 (client (PStr "TOKEN"))
                     eq_refl eq_refl)
              2%nat (fun _ => [PInt 1; PInt 2]) (fun _ => 5) _ _).
    + intros i Hi. exists (page_body [PInt 1; PInt 2] 5).
      split; [|split; [apply page_body_is_page|lia]].
      destruct i as [|[|i]]; [reflexivity|reflexivity|lia].
    + exists 500, None. split; [reflexivity|discriminate].
Defined.

Lemma vendas_by_range_params_witness :
  exists ps,
    sent (snd (run 5 (mock_server 200 (Some (PDict [])))
                 (get_vendas_by_range (PInt 123) "2023-01-01" "2023-01-31")
                 (client (PStr "TOKEN"))))
      = [api_request (PStr "TOKEN") "orders/search" ps] /\
    subscript ps "seller" = inr (PInt 123) /\
    subscript ps "order.date_created.from"
      = inr (PStr "2023-01-01T00:00:00.000-00:00") /\
    subscript ps "order.date_created.to"
      = inr (PStr "2023-01-31T23:59:59.000-00:00").
Proof.
  exact (vendas_by_range_params (mock_server 200 (Some (PDict [])))
           (PStr "TOKEN") (PInt 123) "2023-01-01" "2023-01-31"
           (client (PStr "TOKEN")) 5 eq_refl (le_n 5)).
Defined.

Lemma session_keeps_token_witness :
  exists st token tok,
    mock_server 200 (Some (PDict [("access_token", PStr "TOKEN")]))
      [token_request (PStr "id") (PStr "secret") (PStr "refresh")]
      = inr (mkResponse st (Some token)) /\
    subscript token "access_token" = inr tok /\
    self (mkWorld (client_attrs (PStr "TOKEN"))
            [token_request (PStr "id") (PStr "secret") (PStr "refresh")])
      = client_attrs tok /\
    forall calls,
      self (session (mock_server 200 (Some (PDict [("access_token", PStr "TOKEN")])))
              calls
              (mkWorld (client_attrs (PStr "TOKEN"))
                 [token_request (PStr "id") (PStr "secret") (PStr "refresh")]))
        = client_attrs (PStr "TOKEN") /\
      exists new,
        sent (session (mock_server 200 (Some (PDict [("access_token", PStr "TOKEN")])))
                calls
                (mkWorld (client_attrs (PStr "TOKEN"))
                   [token_request (PStr "id") (PStr "secret") (PStr "refresh")]))
          = (new ++ [token_request (PStr "id") (PStr "secret") (PStr "refresh")])%list /\
        Forall (carries tok) new.
Proof.
  exact (session_keeps_token
           (mock_server 200 (Some (PDict [("access_token", PStr "TOKEN")])))
           (PStr "id") (PStr "secret") (PStr "refresh") 4
           (mkWorld (client_attrs (PStr "TOKEN"))
              [token_request (PStr "id") (PStr "secret") (PStr "refresh")])
           eq_refl).
Defined.

Lemma token_exchange_witness :
  raises (mock_server 400 (Some (PDict [("error", PStr "invalid_grant")])))
    (__init__ (PStr "id") (PStr "secret") (PStr "refresh")) fresh
    (KeyError "access_token")
    (after (token_request (PStr "id") (PStr "secret") (PStr "refresh")) fresh) /\
  returns (mock_server 200 (Some (PDict [("access_token", PStr "TOKEN")])))
    (__init__ (PStr "id") (PStr "secret") (PStr "refresh")) fresh tt
    (mkWorld (client_attrs (PStr "TOKEN"))
       [token_request (PStr "id") (PStr "secret") (PStr "refresh")]).
Proof.
  split.
  - exact (proj1 (token_exchange
                    (mock_server 400 (Some (PDict [("error", PStr "invalid_grant")])))
                    (PStr "id") (PStr "secret") (PStr "refresh") fresh 400
                    (PDict [("error", PStr "invalid_grant")]) eq_refl eq_refl)
             [("error", PStr "invalid_grant")] eq_refl eq_refl).
  - exact (proj1 (proj2 (token_exchange
                    (mock_server 200 (Some (PDict [("access_token", PStr "TOKEN")])))
                    (PStr "id") (PStr "secret") (PStr "refresh") fresh 200
                    (PDict [("access_token", PStr "TOKEN")]) eq_refl eq_refl)
             (PStr "TOKEN") eq_refl)).
Defined.

Lemma paginacao_when_every_request_fails_witness :
  diverges (mock_server 404 None) (get_produtos_paginacao (PStr "celular") 50)
    (client (PStr "TOKEN")) /\
  (forall k,
     snd (run (5 * k) (mock_server 404 None)
            (get_produtos_paginacao (PStr "celular") 50) (client (PStr "TOKEN")))
     = sends (produtos_request (PStr "TOKEN") 50 (PStr "celular")) k
         (client (PStr "TOKEN"))) /\
  returns (mock_server 404 None)
    (get_items_by_category_paging (PStr "MLB1051") 50) (client (PStr "TOKEN"))
    (PList [])
    (after (category_request (PStr "TOKEN") 50 (PStr "MLB1051"))
       (client (PStr "TOKEN"))).
Proof.
  exact (paginacao_when_every_request_fails (mock_server 404 None)
           (PStr "TOKEN") (PStr "celular") (PStr "MLB1051") 50
           (client (PStr "TOKEN"))
           (mock_always_fails 404 None ltac:(discriminate)) eq_refl).
Defined.

(** * Further properties of the class *)

(** ** The request primitive *)

(** X1. On a constructed client, once [_make_api_request] has run its four
    steps it has sent exactly one GET, to the base URL followed by the
    endpoint, with the two headers and the caller's parameters as they are,
    whatever the server answers and whether the call returns or raises. *)
Theorem primitive_sends_one_request (srv : server) (tok : pyval)
  (endpoint : string) (ps : pyval) (w : world) (fuel : nat) :
  self w = client_attrs tok ->
  (4 <= fuel)%nat ->
  snd (run fuel srv (_make_api_request endpoint ps) w)
    = mkWorld (client_attrs tok)
        (mkRequest GET (PStr ("https://api.mercadolibre.com/" ++ endpoint))
           (PDict [("Authorization", tok); ("User-Agent", PStr user_agent_value)])
           ps :: sent w).
Proof.
  intros Hw Hfuel. replace fuel with (4 + (fuel - 4))%nat by lia.
  rewrite (run_api_request srv tok endpoint ps _ w Hw).
  fold base_url_value. fold (api_request tok endpoint ps).
  destruct (srv (api_request tok endpoint ps :: sent w)) as [ex|resp].
  - unfold after. rewrite Hw. reflexivity.
  - match goal with
    | |- context [run ?n srv ?t ?w1] =>
        destruct (run n srv t w1) as [o w'] eqn:H
    end.
    apply run_answer in H. subst w'. unfold after. rewrite Hw. reflexivity.
Qed.

Lemma primitive_sends_one_request_witness :
  snd (run 4 unreachable_server (_make_api_request "sites/MLB/categories" PNone)
         (client (PStr "TOKEN")))
    = mkWorld (client_attrs (PStr "TOKEN"))
        [mkRequest GET (PStr "https://api.mercadolibre.com/sites/MLB/categories")
           (PDict [("Authorization", PStr "TOKEN");
                   ("User-Agent", PStr user_agent_value)])
           PNone].
Proof.
  exact (primitive_sends_one_request unreachable_server (PStr "TOKEN")
           "sites/MLB/categories" PNone (client (PStr "TOKEN")) 4
           eq_refl (le_n 4)).
Defined.

(** X2. The primitive turns only a status other than 200 into [None]: when
    [requests.get] raises, the exception leaves the primitive; when the
    status is 200 and the body is not JSON, [json()] raises
    [JSONDecodeError]; and when the status is not 200 the body is not
    decoded, so [None] is returned even for a body that is not JSON. *)
Theorem primitive_faults (srv : server) (tok : pyval) (endpoint : string)
  (ps : pyval) (w : world) :
  self w = client_attrs tok ->
  (forall ex, srv (api_request tok endpoint ps :: sent w) = inl ex ->
     raises srv (_make_api_request endpoint ps) w ex
       (after (api_request tok endpoint ps) w)) /\
  (srv (api_request tok endpoint ps :: sent w) = inr (mkResponse 200 None) ->
     raises srv (_make_api_request endpoint ps) w JSONDecodeError
       (after (api_request tok endpoint ps) w)) /\
  (forall st, st <> 200 ->
     srv (api_request tok endpoint ps :: sent w) = inr (mkResponse st None) ->
     returns srv (_make_api_request endpoint ps) w PNone
       (after (api_request tok endpoint ps) w)).
Proof.
  intros Hw. split; [|split].
  - intros ex Hs. apply api_raises_unreachable; assumption.
  - intros Hs. apply api_raises_undecodable; assumption.
  - intros st Hst Hs. eapply api_returns_none; eassumption.
Qed.

Lemma primitive_faults_witness :
  raises unreachable_server (_make_api_request "orders/search" PNone)
    (client (PStr "TOKEN")) RequestException
    (after (api_request (PStr "TOKEN") "orders/search" PNone) (client (PStr "TOKEN"))) /\
  raises (mock_server 200 None) (_make_api_request "orders/search" PNone)
    (client (PStr "TOKEN")) JSONDecodeError
    (after (api_request (PStr "TOKEN") "orders/search" PNone) (client (PStr "TOKEN"))) /\
  returns (mock_server 502 None) (_make_api_request "orders/search" PNone)
    (client (PStr "TOKEN")) PNone
    (after (api_request (PStr "TOKEN") "orders/search" PNone) (client (PStr "TOKEN"))).
Proof.
  split; [|split].
  - exact (proj1 (primitive_faults unreachable_server (PStr "TOKEN")
                    "orders/search" PNone (client (PStr "TOKEN")) eq_refl)
             RequestException eq_refl).
  - exact (proj1 (proj2 (primitive_faults (mock_server 200 None) (PStr "TOKEN")
                           "orders/search" PNone (client (PStr "TOKEN")) eq_refl))
             eq_refl).
  - refine (proj2 (proj2 (primitive_faults (mock_server 502 None) (PStr "TOKEN")
                            "orders/search" PNone (client (PStr "TOKEN")) eq_refl))
              502 _ eq_refl).
    discriminate.
Defined.

(** ** The methods without a loop *)

(** X3. Against a server that answers every request with status 200 and a
    body that decodes to [B], each of the nine methods that hand back the
    result of the primitive returns exactly [B], having sent one request. *)
Theorem thin_returns_body (srv : server) (tok : pyval) (w : world) (B : pyval)
  (q : query) :
  self w = client_attrs tok ->
  (forall log, srv log = inr (mkResponse 200 (Some B))) ->
  thin q = true ->
  exists endpoint ps,
    returns srv (call q) w B (after (api_request tok endpoint ps) w).
Proof.
  intros Hw Hs Hq.
  destruct q; try discriminate; simpl call;
    try (eexists; eexists; apply api_returns_body; [exact Hw|apply Hs]).
  - unfold get_vendas. eexists; eexists.
    eapply returns_bind; [apply getattr_returns; rewrite Hw; reflexivity|].
    apply api_returns_body; [exact Hw|apply Hs].
  - unfold get_vendas_by_range. eexists; eexists.
    eapply returns_bind; [apply getattr_returns; rewrite Hw; reflexivity|].
    apply api_returns_body; [exact Hw|apply Hs].
Qed.

Lemma thin_returns_body_witness :
  exists endpoint ps,
    returns (mock_server 200 (Some (PList [PStr "MLB5672"; PStr "MLB1051"])))
      (call AllCategories) (client (PStr "TOKEN"))
      (PList [PStr "MLB5672"; PStr "MLB1051"])
      (after (api_request (PStr "TOKEN") endpoint ps) (client (PStr "TOKEN"))).
Proof.
  exact (thin_returns_body
           (mock_server 200 (Some (PList [PStr "MLB5672"; PStr "MLB1051"])))
           (PStr "TOKEN") (client (PStr "TOKEN"))
           (PList [PStr "MLB5672"; PStr "MLB1051"]) AllCategories
           eq_refl (fun _ => eq_refl) eq_refl).
Defined.

Ltac still :=
  repeat first
    [ apply preserves_ret
    | apply preserves_lift
    | apply preserves_getattr
    | apply preserves_bind; [|intros ?]
    | match goal with
      | |- preserves _ _ (if ?c then _ else _) => destruct c
      end ].

Lemma api_request_sent (srv : server) (tok : pyval) (endpoint : string)
  (ps : pyval) (w : world) (fuel : nat) :
  self w = client_attrs tok -> (4 <= fuel)%nat ->
  snd (run fuel srv (_make_api_request endpoint ps) w)
    = after (api_request tok endpoint ps) w.
Proof.
  intros Hw Hfuel. replace fuel with (4 + (fuel - 4))%nat by lia.
  rewrite (run_api_request srv tok endpoint ps _ w Hw).
  destruct (srv (api_request tok endpoint ps :: sent w)) as [ex|resp];
    [reflexivity|].
  match goal with
  | |- context [run ?n srv ?t ?w1] =>
      destruct (run n srv t w1) as [o w'] eqn:H
  end.
  apply run_answer in H. subst w'. reflexivity.
Qed.

(** A method that reads the token first and then calls the primitive. *)
Lemma token_api_request_sent {R} (srv : server) (tok : pyval)
  (k : pyval -> itree pyE R) (w : world) (n : nat) :
  self w = client_attrs tok ->
  run (S n) srv (ITree.bind (getattr "access_token") k) w = run n srv (k tok) w.
Proof.
  intros Hw. unfold getattr. rewrite run_bind_trigger.
  unfold handle at 1. rewrite Hw. reflexivity.
Qed.

Lemma token_api_request_short {R} (srv : server)
  (k : pyval -> itree pyE R) (w : world) :
  run 0 srv (ITree.bind (getattr "access_token") k) w = (OutOfFuel, w).
Proof. reflexivity. Qed.

(** A sequence whose rest sends nothing and sets nothing ends in the world
    its first part ends in. *)
Lemma run_bind_pure {A R} (srv : server) (t : itree pyE A) (k : A -> itree pyE R) :
  (forall a w1, preserves srv (fun x => x = w1) (k a)) ->
  forall n w o w', run n srv (ITree.bind t k) w = (o, w') ->
                   exists o1, run n srv t w = (o1, w').
Proof.
  intros Hk n w o w' H. apply run_bind_inv in H.
  destruct H as [(a & w1 & m & Hm & Ha & Hr)|[(e & He & _)|[Ho _]]].
  - rewrite (Hk a w1 m w1 o w' eq_refl Hr). eexists. exact Ha.
  - eexists. exact He.
  - eexists. exact Ho.
Qed.

Section Single.

Context (srv : server) (tok : pyval) (w : world).
Hypothesis Hw : self w = client_attrs tok.

Let at_most_one (w' : world) : Prop :=
  w' = w \/ exists endpoint ps, w' = after (api_request tok endpoint ps) w.

Lemma primitive_at_most_one (endpoint : string) (ps : pyval) (fuel : nat) :
  at_most_one (snd (run fuel srv (_make_api_request endpoint ps) w)).
Proof.
  destruct (run fuel srv (_make_api_request endpoint ps) w) as [o w'] eqn:H.
  destruct (api_request_world srv tok endpoint ps fuel w o w' Hw H) as [->| ->].
  - left. reflexivity.
  - right. exists endpoint, ps. reflexivity.
Qed.

Lemma single_at_most_one (q : query) (fuel : nat) :
  single q = true -> at_most_one (snd (run fuel srv (call q) w)).
Proof.
  destruct q; intros Hq; try discriminate; simpl call;
    try apply primitive_at_most_one.
  - unfold get_vendas. destruct fuel as [|fuel]; [left; reflexivity|].
    rewrite (token_api_request_sent srv tok _ w fuel Hw).
    apply primitive_at_most_one.
  - unfold get_vendas_by_range. destruct fuel as [|fuel]; [left; reflexivity|].
    rewrite (token_api_request_sent srv tok _ w fuel Hw).
    apply primitive_at_most_one.
  - unfold get_items_details.
    match goal with
    | |- context [run fuel srv ?t w] => destruct (run fuel srv t w) as [o w'] eqn:H
    end.
    apply run_bind_pure in H; [|intros a w1; still].
    destruct H as [o1 H].
    destruct (api_request_world srv tok _ PNone fuel w _ w' Hw H) as [->| ->].
    + left. reflexivity.
    + right. eexists; eexists. reflexivity.
Qed.

End Single.

(** X4. A call of a method without a loop never sends a second request:
    whatever the server answers and however long the call runs, it has
    sent nothing yet or exactly one GET; nothing is retried. *)
Theorem single_call_sends_at_most_one (srv : server) (tok : pyval) (w : world)
  (q : query) (fuel : nat) :
  self w = client_attrs tok ->
  single q = true ->
  sent (snd (run fuel srv (call q) w)) = sent w \/
  exists endpoint ps,
    sent (snd (run fuel srv (call q) w)) = api_request tok endpoint ps :: sent w.
Proof.
  intros Hw Hq.
  destruct (single_at_most_one srv tok w Hw q fuel Hq) as [H|(ep & ps & H)];
    rewrite H.
  - left. reflexivity.
  - right. exists ep, ps. reflexivity.
Qed.

Lemma single_call_sends_at_most_one_witness :
  sent (snd (run 50 (mock_server 500 None) (call (ItemsDetails "MLB123"))
               (client (PStr "TOKEN")))) = [] \/
  exists endpoint ps,
    sent (snd (run 50 (mock_server 500 None) (call (ItemsDetails "MLB123"))
                 (client (PStr "TOKEN"))))
      = [api_request (PStr "TOKEN") endpoint ps].
Proof.
  exact (single_call_sends_at_most_one (mock_server 500 None) (PStr "TOKEN")
           (client (PStr "TOKEN")) (ItemsDetails "MLB123") 50 eq_refl eq_refl).
Defined.

(** X5. Whatever calls are made on a constructed client, every request
    sent is a GET to a URL that starts with the base URL, and its headers
    are [Authorization] and the fixed [User-Agent] and nothing else. *)
Theorem session_requests_shape (srv : server) (tok : pyval) (w : world)
  (calls : list (query * nat)) :
  self w = client_attrs tok ->
  exists new,
    sent (session srv calls w) = (new ++ sent w)%list /\
    Forall (fun r =>
              meth r = GET /\
              (exists endpoint,
                 url r = PStr ("https://api.mercadolibre.com/" ++ endpoint)) /\
              headers r = PDict [("Authorization", tok);
                                 ("User-Agent", PStr user_agent_value)])
      new.
Proof.
  intros Hw.
  destruct (session_preserves srv tok (client_request tok) (sent w)
              (fun endpoint ps => ex_intro _ endpoint (ex_intro _ ps eq_refl))
              calls w (trace_inv_start _ tok w Hw)) as [_ (new & Hnew & Hall)].
  exists new. split; [exact Hnew|].
  eapply Forall_impl; [|exact Hall].
  intros r (endpoint & ps & ->). split; [reflexivity|].
  split; [exists endpoint; reflexivity|reflexivity].
Qed.

Lemma session_requests_shape_witness :
  exists new,
    sent (session (mock_server 200 (Some (PDict [])))
            [(Produtos (PStr "celular"), 10%nat); (ItemsDetails "MLB123", 10%nat)]
            (client (PStr "TOKEN")))
      = (new ++ [])%list /\
    Forall (fun r =>
              meth r = GET /\
              (exists endpoint,
                 url r = PStr ("https://api.mercadolibre.com/" ++ endpoint)) /\
              headers r = PDict [("Authorization", PStr "TOKEN");
                                 ("User-Agent", PStr user_agent_value)])
      new.
Proof.
  exact (session_requests_shape (mock_server 200 (Some (PDict [])))
           (PStr "TOKEN") (client (PStr "TOKEN"))
           [(Produtos (PStr "celular"), 10%nat); (ItemsDetails "MLB123", 10%nat)]
           eq_refl).
Defined.

(** X6. [get_vendas] sends the access token a second time, as the query
    parameter [access_token] beside the [Authorization] header, while
    [get_selled_items_by_seller], on the same endpoint, sends the seller and
    the status [paid] and no [access_token] parameter. *)
Theorem orders_requests (srv : server) (tok seller_id : pyval) (w : world)
  (fuel : nat) :
  self w = client_attrs tok ->
  (5 <= fuel)%nat ->
  (exists ps,
     sent (snd (run fuel srv (get_vendas seller_id) w))
       = api_request tok "orders/search" ps :: sent w /\
     subscript ps "seller" = inr seller_id /\
     subscript ps "access_token" = inr tok) /\
  (exists ps,
     sent (snd (run fuel srv (get_selled_items_by_seller seller_id) w))
       = api_request tok "orders/search" ps :: sent w /\
     subscript ps "seller" = inr seller_id /\
     subscript ps "order.status" = inr (PStr "paid") /\
     subscript ps "access_token" = inl (KeyError "access_token")).
Proof.
  intros Hw Hfuel. split.
  - exists (PDict [("seller", seller_id); ("access_token", tok)]).
    split; [|split; reflexivity].
    unfold get_vendas. cbv zeta.
    replace fuel with (S (fuel - 1)) by lia.
    rewrite (token_api_request_sent srv tok _ w _ Hw).
    rewrite (api_request_sent srv tok _ _ w _ Hw) by lia. reflexivity.
  - exists (PDict [("seller", seller_id); ("order.status", PStr "paid")]).
    split; [|repeat split].
    unfold get_selled_items_by_seller. cbv zeta.
    rewrite (api_request_sent srv tok _ _ w _ Hw) by lia. reflexivity.
Qed.

Lemma orders_requests_witness :
  (exists ps,
     sent (snd (run 5 (mock_server 200 (Some (PDict [])))
                  (get_vendas (PInt 123)) (client (PStr "TOKEN"))))
       = [api_request (PStr "TOKEN") "orders/search" ps] /\
     subscript ps "seller" = inr (PInt 123) /\
     subscript ps "access_token" = inr (PStr "TOKEN")) /\
  (exists ps,
     sent (snd (run 5 (mock_server 200 (Some (PDict [])))
                  (get_selled_items_by_seller (PInt 123)) (client (PStr "TOKEN"))))
       = [api_request (PStr "TOKEN") "orders/search" ps] /\
     subscript ps "seller" = inr (PInt 123) /\
     subscript ps "order.status" = inr (PStr "paid") /\
     subscript ps "access_token" = inl (KeyError "access_token")).
Proof.
  exact (orders_requests (mock_server 200 (Some (PDict []))) (PStr "TOKEN")
           (PInt 123) (client (PStr "TOKEN")) 5 eq_refl (le_n 5)).
Defined.

(** X7. [get_items_details] and [get_visits_by_items] put [id_produto] into
    the path of the URL as it is: the first asks for [items/] followed by
    the id, with no parameters; the second for the same followed by
    [/visits/time_window], with the window length, the unit [day] and the
    end date. *)
Theorem item_requests (srv : server) (tok : pyval) (id_produto : string)
  (dias data_final : pyval) (w : world) (fuel : nat) :
  self w = client_attrs tok ->
  (4 <= fuel)%nat ->
  (exists r,
     sent (snd (run fuel srv (get_items_details id_produto) w)) = r :: sent w /\
     url r = PStr ("https://api.mercadolibre.com/items/" ++ id_produto) /\
     params r = PNone) /\
  (exists r,
     sent (snd (run fuel srv (get_visits_by_items id_produto dias data_final) w))
       = r :: sent w /\
     url r = PStr ("https://api.mercadolibre.com/items/" ++ id_produto
                     ++ "/visits/time_window") /\
     params r = PDict [("last", dias); ("unit", PStr "day"); ("ending", data_final)]).
Proof.
  intros Hw Hfuel. split.
  - exists (api_request tok ("items/" ++ id_produto) PNone).
    split; [|split; reflexivity].
    unfold get_items_details.
    match goal with
    | |- context [run fuel srv ?t w] => destruct (run fuel srv t w) as [o w'] eqn:H
    end.
    apply run_bind_pure in H; [|intros a w1; still].
    destruct H as [o1 H].
    pose proof (api_request_sent srv tok ("items/" ++ id_produto) PNone w fuel
                  Hw Hfuel) as Hsent.
    rewrite H in Hsent. simpl in Hsent. simpl. rewrite Hsent. reflexivity.
  - exists (api_request tok ("items/" ++ id_produto ++ "/visits/time_window")
              (PDict [("last", dias); ("unit", PStr "day"); ("ending", data_final)])).
    split; [|split; reflexivity].
    unfold get_visits_by_items. cbv zeta.
    rewrite (api_request_sent srv tok _ _ w _ Hw) by lia. reflexivity.
Qed.

Lemma item_requests_witness :
  (exists r,
     sent (snd (run 10 (mock_server 404 None) (get_items_details "MLB123")
                  (client (PStr "TOKEN")))) = [r] /\
     url r = PStr "https://api.mercadolibre.com/items/MLB123" /\
     params r = PNone) /\
  (exists r,
     sent (snd (run 10 (mock_server 404 None)
                  (get_visits_by_items "MLB123" (PInt 7) (PStr "2023-05-01"))
                  (client (PStr "TOKEN")))) = [r] /\
     url r = PStr "https://api.mercadolibre.com/items/MLB123/visits/time_window" /\
     params r = PDict [("last", PInt 7); ("unit", PStr "day");
                       ("ending", PStr "2023-05-01")]).
Proof.
  exact (item_requests (mock_server 404 None) (PStr "TOKEN") "MLB123"
           (PInt 7) (PStr "2023-05-01") (client (PStr "TOKEN")) 10
           eq_refl ltac:(repeat constructor)).
Defined.

(** ** The pagination loops on other answers *)

Section PageFaults.

Context (srv : server) (limit : Z).

(** What is left of a turn once the answer is a dictionary that is not a
    page. *)
Lemma page_turn_faults {R} (d : list (string * pyval)) (offset : Z)
  (resultados : list pyval) (yes no : paging_state -> R) (w : world) (e : exn) :
  dict_get d "results" = None /\ e = KeyError "results" \/
  (exists rs, dict_get d "results" = Some (PList rs) /\
              dict_get d "paging" = None /\ e = KeyError "paging") \/
  (exists rs p, dict_get d "results" = Some (PList rs) /\
                dict_get d "paging" = Some (PDict p) /\
                dict_get p "total" = None /\ e = KeyError "total") \/
  (exists rs p s, dict_get d "results" = Some (PList rs) /\
                  dict_get d "paging" = Some (PDict p) /\
                  dict_get p "total" = Some (PStr s) /\ e = TypeError) ->
  raises srv
    (results <- lift (subscript (PDict d) "results") ;;
     page <- lift (iterate results) ;;
     paging <- lift (subscript (PDict d) "paging") ;;
     total <- lift (subscript paging "total") ;;
     reached <- lift (int_ge (offset + limit) total) ;;
     if reached : bool then Ret (yes (offset + limit, (resultados ++ page)%list))
     else Ret (no (offset + limit, (resultados ++ page)%list)))
    w e w.
Proof.
  intros H. apply (raises_of_run srv 1). unfold subscript at 1 2.
  destruct H as [[H1 ->]|[(rs & H1 & H2 & ->)|[(rs & p & H1 & H2 & H3 & ->)
                |(rs & p & s & H1 & H2 & H3 & ->)]]]; rewrite H1.
  - reflexivity.
  - rewrite run_bind_lift_ok.
    change (iterate (PList rs)) with (@inr exn _ rs). rewrite run_bind_lift_ok.
    rewrite H2. reflexivity.
  - rewrite run_bind_lift_ok.
    change (iterate (PList rs)) with (@inr exn _ rs). rewrite run_bind_lift_ok.
    rewrite H2, run_bind_lift_ok. unfold subscript. rewrite H3. reflexivity.
  - rewrite run_bind_lift_ok.
    change (iterate (PList rs)) with (@inr exn _ rs). rewrite run_bind_lift_ok.
    rewrite H2, run_bind_lift_ok. unfold subscript. rewrite H3.
    rewrite run_bind_lift_ok. reflexivity.
Qed.

End PageFaults.

(** X8. When the answers have status 200 and a dictionary that is not a
    page, both paginated methods raise after their first request:
    [KeyError] for a missing [results], [paging] or [total], in that order,
    and [TypeError] for a [total] that is a string. *)
Theorem paginated_shape_faults (srv : server) (tok kw cat : pyval) (limit : Z)
  (w : world) (d : list (string * pyval)) :
  self w = client_attrs tok ->
  (forall log, srv log = inr (mkResponse 200 (Some (PDict d)))) ->
  (dict_get d "results" = None ->
   paginated_raise srv kw cat limit w (KeyError "results")) /\
  (forall rs, dict_get d "results" = Some (PList rs) ->
              dict_get d "paging" = None ->
              paginated_raise srv kw cat limit w (KeyError "paging")) /\
  (forall rs p, dict_get d "results" = Some (PList rs) ->
                dict_get d "paging" = Some (PDict p) ->
                dict_get p "total" = None ->
                paginated_raise srv kw cat limit w (KeyError "total")) /\
  (forall rs p s, dict_get d "results" = Some (PList rs) ->
                  dict_get d "paging" = Some (PDict p) ->
                  dict_get p "total" = Some (PStr s) ->
                  paginated_raise srv kw cat limit w TypeError).
Proof.
  intros Hw Hs.
  assert (Hall : forall e,
            dict_get d "results" = None /\ e = KeyError "results" \/
            (exists rs, dict_get d "results" = Some (PList rs) /\
                        dict_get d "paging" = None /\ e = KeyError "paging") \/
            (exists rs p, dict_get d "results" = Some (PList rs) /\
                          dict_get d "paging" = Some (PDict p) /\
                          dict_get p "total" = None /\ e = KeyError "total") \/
            (exists rs p s, dict_get d "results" = Some (PList rs) /\
                            dict_get d "paging" = Some (PDict p) /\
                            dict_get p "total" = Some (PStr s) /\ e = TypeError) ->
            paginated_raise srv kw cat limit w e).
  { intros e He. split.
    - exists (produtos_request tok limit kw). unfold get_produtos_paginacao.
      apply raises_bind_first, raises_iter. unfold produtos_body.
      eapply raises_bind; [apply api_returns_body; [exact Hw|apply Hs]|].
      change (is_none (PDict d)) with false. cbv iota.
      exact (page_turn_faults srv limit d 0 []
               (@inr paging_state paging_state) (@inr paging_state paging_state)
               _ e He).
    - exists (category_request tok limit cat). unfold get_items_by_category_paging.
      apply raises_bind_first, raises_iter. unfold category_body.
      eapply raises_bind; [apply api_returns_body; [exact Hw|apply Hs]|].
      change (is_none (PDict d)) with false. cbv iota.
      exact (page_turn_faults srv limit d 0 []
               (@inr paging_state paging_state) (@inl paging_state paging_state)
               _ e He). }
  split; [|split; [|split]].
  - intros H1. apply Hall. left. auto.
  - intros rs H1 H2. apply Hall. right; left. exists rs. auto.
  - intros rs p H1 H2 H3. apply Hall. right; right; left. exists rs, p. auto.
  - intros rs p s H1 H2 H3. apply Hall. right; right; right. exists rs, p, s. auto.
Qed.

Lemma paginated_shape_faults_witness :
  paginated_raise (mock_server 200 (Some (PDict [("message", PStr "forbidden")])))
    (PStr "celular") (PStr "MLB1051") 50 (client (PStr "TOKEN"))
    (KeyError "results") /\
  paginated_raise (mock_server 200 (Some (PDict [("results", PList [])])))
    (PStr "celular") (PStr "MLB1051") 50 (client (PStr "TOKEN"))
    (KeyError "paging").
Proof.
  split.
  - exact (proj1 (paginated_shape_faults
                    (mock_server 200 (Some (PDict [("message", PStr "forbidden")])))
                    (PStr "TOKEN") (PStr "celular") (PStr "MLB1051") 50
                    (client (PStr "TOKEN")) [("message", PStr "forbidden")]
                    eq_refl (fun _ => eq_refl)) eq_refl).
  - exact (proj1 (proj2 (paginated_shape_faults
                    (mock_server 200 (Some (PDict [("results", PList [])])))
                    (PStr "TOKEN") (PStr "celular") (PStr "MLB1051") 50
                    (client (PStr "TOKEN")) [("results", PList [])]
                    eq_refl (fun _ => eq_refl))) [] eq_refl eq_refl).
Defined.

Section ProdutosLoop.

Context (srv : server) (tok kw : pyval) (limit : Z).

Let req := produtos_request tok limit kw.

(** [k] failed turns leave the loop of [get_produtos_paginacao] in the
    state it was in, [k] requests later. *)
Lemma produtos_loop_retries (k : nat) :
  forall (st : paging_state) w r w2,
    self w = client_attrs tok ->
    (forall i, (i < k)%nat ->
       exists s b, srv (repeat req (S i) ++ sent w)%list = inr (mkResponse s b) /\
                   s <> 200) ->
    returns srv (ITree.iter (produtos_body kw limit) st) (sends req k w) r w2 ->
    returns srv (ITree.iter (produtos_body kw limit) st) w r w2.
Proof.
  induction k as [|k IH]; intros [offset resultados] w r w2 Hw Hf Hr.
  - rewrite sends_zero in Hr. exact Hr.
  - destruct (Hf 0%nat (Nat.lt_0_succ k)) as (s & b & Hs & Hst).
    eapply returns_iter_again.
    + eapply produtos_turn_none; [exact Hw|exact Hs|exact Hst].
    + apply IH.
      * exact Hw.
      * intros i Hi. destruct (Hf (S i) ltac:(lia)) as (s' & b' & Hs' & Hst').
        exists s', b'. split; [|exact Hst'].
        simpl sent. fold req. rewrite repeat_snoc_app. exact Hs'.
      * fold req. rewrite sends_after. exact Hr.
Qed.

End ProdutosLoop.

(** X9. [get_produtos_paginacao] asks again until it is answered: when its
    first [k] requests get a status other than 200 and the next one gets a
    page, it returns the results of that page, after [k + 1] identical
    requests. *)
Theorem produtos_retries_until_page (srv : server) (tok kw : pyval) (limit : Z)
  (w : world) (k : nat) (body : pyval) (rs : list pyval) (total : Z) :
  self w = client_attrs tok ->
  (forall i, (i < k)%nat ->
     exists s b,
       srv (repeat (produtos_request tok limit kw) (S i) ++ sent w)%list
         = inr (mkResponse s b) /\ s <> 200) ->
  srv (repeat (produtos_request tok limit kw) (S k) ++ sent w)%list
    = inr (mkResponse 200 (Some body)) ->
  is_page body rs total ->
  returns srv (get_produtos_paginacao kw limit) w (PList rs)
    (sends (produtos_request tok limit kw) (S k) w).
Proof.
  intros Hw Hf Hs Hpage. unfold get_produtos_paginacao.
  eapply returns_bind.
  - apply (produtos_loop_retries srv tok kw limit k (0, []) w _ _ Hw Hf).
    apply returns_iter_break.
    eapply produtos_turn_page; [exact Hw|exact Hs|exact Hpage].
  - apply ret_returns.
Qed.

Lemma produtos_retries_until_page_witness :
  returns (recovering_server 2 (page_body [PInt 1; PInt 2] 5))
    (get_produtos_paginacao (PStr "celular") 2) (client (PStr "TOKEN"))
    (PList [PInt 1; PInt 2])
    (sends (produtos_request (PStr "TOKEN") 2 (PStr "celular")) 3
       (client (PStr "TOKEN"))).
Proof.
  refine (produtos_retries_until_page
            (recovering_server 2 (page_body [PInt 1; PInt 2] 5))
            (PStr "TOKEN") (PStr "celular") 2 (client (PStr "TOKEN")) 2
            (page_body [PInt 1; PInt 2] 5) [PInt 1; PInt 2] 5
            eq_refl _ eq_refl (page_body_is_page [PInt 1; PInt 2] 5)).
  intros i Hi. exists 503, None. split; [|discriminate].
  destruct i as [|[|i]]; [reflexivity|reflexivity|lia].
Defined.

(** X10. [get_items_by_category_paging] puts the pages it is given one
    after the other: when its first [k] pages each fall short of their
    total and the next one reaches it, it returns the results of the
    [k + 1] pages in the order received, after [k + 1] requests. *)
Theorem category_collects_pages (srv : server) (tok cat : pyval) (limit : Z)
  (w : world) (k : nat) (pages : nat -> list pyval) (totals : nat -> Z) :
  self w = client_attrs tok ->
  (forall i, (i < k)%nat ->
     exists b,
       srv (repeat (category_request tok limit cat) (S i) ++ sent w)%list
         = inr (mkResponse 200 (Some b)) /\
       is_page b (pages i) (totals i) /\
       (Z.of_nat i + 1) * limit < totals i) ->
  (exists b,
     srv (repeat (category_request tok limit cat) (S k) ++ sent w)%list
       = inr (mkResponse 200 (Some b)) /\
     is_page b (pages k) (totals k) /\
     totals k <= (Z.of_nat k + 1) * limit) ->
  returns srv (get_items_by_category_paging cat limit) w
    (PList (concat (map pages (seq 0 (S k)))))
    (sends (category_request tok limit cat) (S k) w).
Proof.
  intros Hw Hp (b & Hs & Hpage & Hle). unfold get_items_by_category_paging.
  pose proof (category_turn_page srv tok limit cat b (pages k) (totals k)
                (0 + Z.of_nat k * limit)
                ([] ++ concat (map pages (seq 0 k)))%list
                (sends (category_request tok limit cat) k w) Hw Hs Hpage) as Hturn.
  replace (totals k <=? 0 + Z.of_nat k * limit + limit) with true in Hturn
    by (symmetry; apply Z.leb_le; lia).
  eapply returns_bind.
  - apply (category_loop_pages srv tok cat limit k pages totals 0 [] w _ _ Hw).
    + intros i Hi. destruct (Hp i Hi) as (b' & H1 & H2 & H3).
      exists b'. split; [exact H1|]. split; [exact H2|lia].
    + apply returns_iter_break. exact Hturn.
  - simpl snd. simpl app.
    rewrite seq_S, map_app, concat_app. simpl. rewrite app_nil_r.
    apply ret_returns.
Qed.

Lemma category_collects_pages_witness :
  returns (paged_server [[PInt 1; PInt 2]; [PInt 3; PInt 4]; [PInt 5]] 5)
    (get_items_by_category_paging (PStr "MLB1051") 2) (client (PStr "TOKEN"))
    (PList [PInt 1; PInt 2; PInt 3; PInt 4; PInt 5])
    (sends (category_request (PStr "TOKEN") 2 (PStr "MLB1051")) 3
       (client (PStr "TOKEN"))).
Proof.
  refine (category_collects_pages
            (paged_server [[PInt 1; PInt 2]; [PInt 3; PInt 4]; [PInt 5]] 5)
            (PStr "TOKEN") (PStr "MLB1051") 2 (client (PStr "TOKEN")) 2
            (fun i => nth i [[PInt 1; PInt 2]; [PInt 3; PInt 4]; [PInt 5]] [])
            (fun _ => 5) eq_refl _ _).
  - intros i Hi.
    exists (page_body (nth i [[PInt 1; PInt 2]; [PInt 3; PInt 4]; [PInt 5]] []) 5).
    split; [|split; [apply page_body_is_page|lia]].
    destruct i as [|[|i]]; [reflexivity|reflexivity|lia].
  - exists (page_body [PInt 5] 5).
    split; [reflexivity|]. split; [apply page_body_is_page|lia].
Defined.

(** X11. With a limit that is zero or negative, against a server that
    answers every request with the same page and a positive total,
    [get_items_by_category_paging] neither returns nor raises: the offset
    never reaches the total. *)
Theorem category_nonpositive_limit_diverges (srv : server) (tok cat : pyval)
  (limit : Z) (b : pyval) (rs : list pyval) (total : Z) (w : world) :
  self w = client_attrs tok ->
  limit <= 0 -> 0 < total ->
  (forall log, srv log = inr (mkResponse 200 (Some b))) ->
  is_page b rs total ->
  diverges srv (get_items_by_category_paging cat limit) w /\
  (forall r w', ~ returns srv (get_items_by_category_paging cat limit) w r w') /\
  (forall e w', ~ raises srv (get_items_by_category_paging cat limit) w e w').
Proof.
  intros Hw Hl Ht Hs Hpage.
  pose proof (category_never_exhausts srv tok cat limit b rs total w
                Hw Hl Ht Hs Hpage) as D.
  split; [exact D|]. split.
  - intros r w' H. exact (diverges_not_returns _ _ _ _ _ D H).
  - intros e w' H. exact (diverges_not_raises _ _ _ _ _ D H).
Qed.

Lemma category_nonpositive_limit_diverges_witness :
  diverges (mock_server 200 (Some (page_body [PInt 1; PInt 2] 5)))
    (get_items_by_category_paging (PStr "MLB1051") (-50)) (client (PStr "TOKEN")).
Proof.
  refine (proj1 (category_nonpositive_limit_diverges
                   (mock_server 200 (Some (page_body [PInt 1; PInt 2] 5)))
                   (PStr "TOKEN") (PStr "MLB1051") (-50)
                   (page_body [PInt 1; PInt 2] 5) [PInt 1; PInt 2] 5
                   (client (PStr "TOKEN")) eq_refl _ eq_refl (fun _ => eq_refl)
                   (page_body_is_page [PInt 1; PInt 2] 5))).
  discriminate.
Defined.

(** ** Construction *)

(** X12. Construction that raises has sent its one POST and set no
    attribute. It raises what [requests.post] raises, [JSONDecodeError] for
    a body that is not JSON, and [TypeError] for a body that decodes to
    something other than a dictionary; the status of the answer is never
    looked at. *)
Theorem construction_faults (srv : server)
  (client_id client_secret refresh_token : pyval) (w : world) :
  self w = [] ->
  (forall e w',
     raises srv (__init__ client_id client_secret refresh_token) w e w' ->
     self w' = [] /\
     sent w' = token_request client_id client_secret refresh_token :: sent w) /\
  (forall ex,
     srv (token_request client_id client_secret refresh_token :: sent w) = inl ex ->
     raises srv (__init__ client_id client_secret refresh_token) w ex
       (after (token_request client_id client_secret refresh_token) w)) /\
  (forall st,
     srv (token_request client_id client_secret refresh_token :: sent w)
       = inr (mkResponse st None) ->
     raises srv (__init__ client_id client_secret refresh_token) w JSONDecodeError
       (after (token_request client_id client_secret refresh_token) w)) /\
  (forall st token,
     srv (token_request client_id client_secret refresh_token :: sent w)
       = inr (mkResponse st (Some token)) ->
     (forall d, token <> PDict d) ->
     raises srv (__init__ client_id client_secret refresh_token) w TypeError
       (after (token_request client_id client_secret refresh_token) w)).
Proof.
  intros Hw. split; [|split; [|split]].
  - intros e w' [n H]. specialize (H (4 + n)%nat ltac:(lia)).
    rewrite (run_init srv _ _ _ n w Hw) in H.
    destruct (srv (token_request client_id client_secret refresh_token :: sent w))
      as [ex|[st [token|]]]; simpl in H.
    + inversion H. split; [exact Hw|reflexivity].
    + destruct (subscript token "access_token"); inversion H.
      split; [exact Hw|reflexivity].
    + inversion H. split; [exact Hw|reflexivity].
  - intros ex Hs. apply (raises_of_run srv (4 + 0)).
    rewrite (run_init srv _ _ _ 0 w Hw), Hs. reflexivity.
  - intros st Hs. apply (raises_of_run srv (4 + 0)).
    rewrite (run_init srv _ _ _ 0 w Hw), Hs. reflexivity.
  - intros st token Hs Hd. apply (raises_of_run srv (4 + 0)).
    rewrite (run_init srv _ _ _ 0 w Hw), Hs. simpl json_body. cbv iota.
    destruct token; try reflexivity. exfalso. exact (Hd items eq_refl).
Qed.

Lemma construction_faults_witness :
  raises unreachable_server (__init__ (PStr "id") (PStr "secret") (PStr "refresh"))
    fresh RequestException
    (after (token_request (PStr "id") (PStr "secret") (PStr "refresh")) fresh) /\
  raises (mock_server 502 None)
    (__init__ (PStr "id") (PStr "secret") (PStr "refresh"))
    fresh JSONDecodeError
    (after (token_request (PStr "id") (PStr "secret") (PStr "refresh")) fresh) /\
  raises (mock_server 200 (Some (PList [])))
    (__init__ (PStr "id") (PStr "secret") (PStr "refresh"))
    fresh TypeError
    (after (token_request (PStr "id") (PStr "secret") (PStr "refresh")) fresh).
Proof.
  split; [|split].
  - exact (proj1 (proj2 (construction_faults unreachable_server
                           (PStr "id") (PStr "secret") (PStr "refresh") fresh
                           eq_refl))
             RequestException eq_refl).
  - exact (proj1 (proj2 (proj2 (construction_faults (mock_server 502 None)
                                  (PStr "id") (PStr "secret") (PStr "refresh") fresh
                                  eq_refl)))
             502 eq_refl).
  - refine (proj2 (proj2 (proj2 (construction_faults
                                   (mock_server 200 (Some (PList [])))
                                   (PStr "id") (PStr "secret") (PStr "refresh") fresh
                                   eq_refl)))
              200 (PList []) eq_refl _).
    intros d H. discriminate H.
Defined.

(** ** The date of an item *)

Lemma str_take_length (n : nat) (s : string) :
  String.length (str_take n s) = Nat.min n (String.length s).
Proof.
  revert s. induction n as [|n IH]; intros [|c s]; simpl; auto.
Qed.

Lemma str_take_prefix (n : nat) (s : string) :
  String.prefix (str_take n s) s = true.
Proof.
  revert s. induction n as [|n IH]; intros [|c s]; simpl; auto.
  destruct (Ascii.ascii_dec c c) as [_|H]; [apply IH|congruence].
Qed.

Lemma str_take_all (n : nat) (s : string) :
  (String.length s <= n)%nat -> str_take n s = s.
Proof.
  revert s. induction n as [|n IH]; intros [|c s] H; simpl in *; auto; try lia.
  f_equal. apply IH. lia.
Qed.

(** X13. For an item that has the three fields: the date
    [get_items_details] returns is a prefix of a string [start_time], of
    length 10 or of the length of [start_time] if that is less, so a
    [start_time] of at most 10 characters comes back whole; of a list it is
    the first 10 elements; and a [start_time] that is [null], a number, a
    boolean or an object makes the method raise [TypeError]. *)
Theorem items_details_date (srv : server) (tok : pyval) (id_produto : string)
  (w : world) (d : list (string * pyval)) (sid sq : pyval) :
  self w = client_attrs tok ->
  srv (api_request tok ("items/" ++ id_produto) PNone :: sent w)
    = inr (mkResponse 200 (Some (PDict d))) ->
  dict_get d "seller_id" = Some sid ->
  dict_get d "sold_quantity" = Some sq ->
  (forall s, dict_get d "start_time" = Some (PStr s) ->
     exists date,
       returns srv (get_items_details id_produto) w
         (PTuple [PStr date; sid; sq])
         (after (api_request tok ("items/" ++ id_produto) PNone) w) /\
       String.length date = Nat.min 10 (String.length s) /\
       String.prefix date s = true /\
       ((String.length s <= 10)%nat -> date = s)) /\
  (forall l, dict_get d "start_time" = Some (PList l) ->
     returns srv (get_items_details id_produto) w
       (PTuple [PList (firstn 10 l); sid; sq])
       (after (api_request tok ("items/" ++ id_produto) PNone) w)) /\
  (forall v, dict_get d "start_time" = Some v ->
     match v with
     | PNone | PBool _ | PInt _ | PDict _ => True
     | _ => False
     end ->
     raises srv (get_items_details id_produto) w TypeError
       (after (api_request tok ("items/" ++ id_produto) PNone) w)).
Proof.
  intros Hw Hs H1 H2.
  assert (Hdados : returns srv (_make_api_request ("items/" ++ id_produto) PNone) w
                     (PDict d) (after (api_request tok ("items/" ++ id_produto) PNone) w))
    by (apply api_returns_body; assumption).
  assert (Hok : forall v date,
            dict_get d "start_time" = Some v -> slice_to v 10 = inr date ->
            returns srv (get_items_details id_produto) w
              (PTuple [date; sid; sq])
              (after (api_request tok ("items/" ++ id_produto) PNone) w)).
  { intros v date H0 Hv. unfold get_items_details.
    eapply returns_bind; [exact Hdados|].
    apply (returns_of_run srv 0). unfold subscript.
    rewrite H0, run_bind_lift_ok. rewrite Hv, run_bind_lift_ok.
    rewrite H1, run_bind_lift_ok. rewrite H2, run_bind_lift_ok. apply run_ret. }
  split; [|split].
  - intros s H0. exists (str_take 10 s). split; [|split; [|split]].
    + apply (Hok (PStr s)); [exact H0|reflexivity].
    + apply str_take_length.
    + apply str_take_prefix.
    + apply str_take_all.
  - intros l H0. apply (Hok (PList l)); [exact H0|reflexivity].
  - intros v H0 Hv. unfold get_items_details.
    eapply raises_bind; [exact Hdados|].
    apply (raises_of_run srv 1). unfold subscript.
    rewrite H0, run_bind_lift_ok.
    destruct v; try contradiction; reflexivity.
Qed.

Lemma items_details_date_witness :
  (exists date,
     returns
       (mock_server 200
          (Some (PDict [("start_time", PStr "2023-05"); ("seller_id", PInt 42);
                        ("sold_quantity", PInt 7)])))
       (get_items_details "MLB123") (client (PStr "TOKEN"))
       (PTuple [PStr date; PInt 42; PInt 7])
       (after (api_request (PStr "TOKEN") "items/MLB123" PNone)
          (client (PStr "TOKEN"))) /\
     String.length date = 7%nat /\
     String.prefix date "2023-05" = true /\
     ((7 <= 10)%nat -> date = "2023-05")) /\
  raises
    (mock_server 200
       (Some (PDict [("start_time", PNone); ("seller_id", PInt 42);
                     ("sold_quantity", PInt 7)])))
    (get_items_details "MLB123") (client (PStr "TOKEN")) TypeError
    (after (api_request (PStr "TOKEN") "items/MLB123" PNone) (client (PStr "TOKEN"))).
Proof.
  split.
  - exact (proj1 (items_details_date
                    (mock_server 200
                       (Some (PDict [("start_time", PStr "2023-05");
                                     ("seller_id", PInt 42);
                                     ("sold_quantity", PInt 7)])))
                    (PStr "TOKEN") "MLB123" (client (PStr "TOKEN"))
                    [("start_time", PStr "2023-05"); ("seller_id", PInt 42);
                     ("sold_quantity", PInt 7)]
                    (PInt 42) (PInt 7) eq_refl eq_refl eq_refl eq_refl)
             "2023-05" eq_refl).
  - exact (proj2 (proj2 (items_details_date
                    (mock_server 200
                       (Some (PDict [("start_time", PNone);
                                     ("seller_id", PInt 42);
                                     ("sold_quantity", PInt 7)])))
                    (PStr "TOKEN") "MLB123" (client (PStr "TOKEN"))
                    [("start_time", PNone); ("seller_id", PInt 42);
                     ("sold_quantity", PInt 7)]
                    (PInt 42) (PInt 7) eq_refl eq_refl eq_refl eq_refl))
             PNone eq_refl I).
Defined.

(** ** A body that is [null] *)

(** X14. An answer with status 200 whose body is JSON [null] is taken for
    a failure: against a server that always answers so, the primitive
    returns [None], [get_items_by_category_paging] returns the empty list
    after one request, [get_items_details] raises [TypeError], and
    [get_produtos_paginacao] neither returns nor raises. *)
Theorem null_body_is_failure (srv : server) (tok kw cat : pyval) (limit : Z)
  (id_produto : string) (w : world) :
  self w = client_attrs tok ->
  (forall log, srv log = inr (mkResponse 200 (Some PNone))) ->
  (forall endpoint ps,
     returns srv (_make_api_request endpoint ps) w PNone
       (after (api_request tok endpoint ps) w)) /\
  returns srv (get_items_by_category_paging cat limit) w (PList [])
    (after (category_request tok limit cat) w) /\
  raises srv (get_items_details id_produto) w TypeError
    (after (api_request tok ("items/" ++ id_produto) PNone) w) /\
  diverges srv (get_produtos_paginacao kw limit) w.
Proof.
  intros Hw Hs.
  assert (Hnone : forall endpoint ps w1,
            self w1 = client_attrs tok ->
            returns srv (_make_api_request endpoint ps) w1 PNone
              (after (api_request tok endpoint ps) w1))
    by (intros endpoint ps w1 Hw1; apply api_returns_body; [exact Hw1|apply Hs]).
  split; [|split; [|split]].
  - intros endpoint ps. apply Hnone, Hw.
  - unfold get_items_by_category_paging. eapply returns_bind.
    + apply returns_iter_break. unfold category_body.
      eapply returns_bind; [apply Hnone, Hw|]. apply ret_returns.
    + apply ret_returns.
  - unfold get_items_details. eapply raises_bind; [apply Hnone, Hw|].
    apply (raises_of_run srv 1). reflexivity.
  - unfold get_produtos_paginacao. apply diverges_bind_first.
    apply (diverges_iter srv (produtos_body kw limit)
             (fun _ w1 => self w1 = client_attrs tok)); [|exact Hw].
    intros [offset resultados] w1 Hw1.
    exists (offset, resultados), (after (produtos_request tok limit kw) w1).
    split; [|exact Hw1]. unfold produtos_body.
    eapply returns_bind; [apply Hnone, Hw1|]. apply ret_returns.
Qed.

Lemma null_body_is_failure_witness :
  returns (mock_server 200 (Some PNone))
    (get_items_by_category_paging (PStr "MLB1051") 50) (client (PStr "TOKEN"))
    (PList [])
    (after (category_request (PStr "TOKEN") 50 (PStr "MLB1051"))
       (client (PStr "TOKEN"))) /\
  diverges (mock_server 200 (Some PNone))
    (get_produtos_paginacao (PStr "celular") 50) (client (PStr "TOKEN")).
Proof.
  pose proof (null_body_is_failure (mock_server 200 (Some PNone))
                (PStr "TOKEN") (PStr "celular") (PStr "MLB1051") 50 "MLB123"
                (client (PStr "TOKEN")) eq_refl (fun _ => eq_refl))
    as [_ [Hcat [_ Hprod]]].
  split; [exact Hcat|exact Hprod].
Defined.
